(** * Radius-of-gyration analysis of the tetracyclic polymer simulation

    A shallow embedding of the two analysis scripts

    - [analysis_scripts/compute_gyration.py]      (summary statistics, module [Stats])
    - [analysis_scripts/compute_gyration (1).py]  (g-factor analysis, module [GFactor])

    and the properties of their statistical reduction pipeline.

    Layout:
    - [Arith]: the arithmetic the scripts compute with.  The scripts use
      NumPy's [float64]; the numeric kernels below are written once over an
      arithmetic interface and read at three instances: [binary64] (Rocq's
      primitive IEEE 754 binary64 floats: what the scripts run on),
      [rounded rnd] (real numbers, every operation followed by a rounding
      [rnd]: rounding without exponent bounds) and [exact] (real numbers, no
      rounding).
    - the NumPy reductions and the kernels of the two scripts;
    - the scripts themselves, as programs in a state-and-exception monad over
      a world made of the files on disk and the lines printed;
    - the notions the properties are stated with, the lemmas, the
      properties C1 to C10 of the specification, and further properties of
      the scripts, X1 to X22. *)

From stdpp Require Import base list gmap strings.
From Stdlib Require Import ZArith QArith Floats Uint63 Reals Lra Lia.

Set Warnings "-inexact-float".

Close Scope Q_scope.
Close Scope R_scope.
Close Scope uint63_scope.
Close Scope Z_scope.
Open Scope nat_scope.

(** ** The arithmetic interface *)

Class Arith (F : Type) := {
  of_count : nat -> F;        (* a non-negative Python int used as a float *)
  lit : Q -> F;               (* a decimal literal of the source *)
  fadd : F -> F -> F;
  fsub : F -> F -> F;
  fmul : F -> F -> F;
  fdiv : F -> F -> F;
  fsqrt : F -> F;             (* np.sqrt *)
  fabs : F -> F;              (* abs *)
  flt : F -> F -> bool;       (* < *)
}.

Declare Scope arith_scope.
Delimit Scope arith_scope with A.
Infix "+" := fadd : arith_scope.
Infix "-" := fsub : arith_scope.
Infix "*" := fmul : arith_scope.
Infix "/" := fdiv : arith_scope.
Infix "<?" := flt : arith_scope.

(** *** IEEE 754 binary64 *)

Definition float_of_Z (z : Z) : float :=
  match z with
  | Zneg p => PrimFloat.opp (PrimFloat.of_uint63 (Uint63.of_Z (Zpos p)))
  | _ => PrimFloat.of_uint63 (Uint63.of_Z z)
  end.

(** A decimal literal [m / 10^k] whose numerator and denominator are below
    [2^53] is the correctly rounded quotient of two exactly represented
    integers, that is the binary64 number nearest to the decimal, which is
    what Python's parser produces. *)
Definition float_of_Q (q : Q) : float :=
  PrimFloat.div (float_of_Z (Qnum q)) (float_of_Z (Zpos (Qden q))).

Definition binary64 : Arith float := {|
  of_count n := float_of_Z (Z.of_nat n);
  lit := float_of_Q;
  fadd := PrimFloat.add;
  fsub := PrimFloat.sub;
  fmul := PrimFloat.mul;
  fdiv := PrimFloat.div;
  fsqrt := PrimFloat.sqrt;
  fabs := PrimFloat.abs;
  flt := PrimFloat.ltb;
|}.

(** *** Real arithmetic, rounded after every operation and exact *)

Definition Rltb (x y : R) : bool := if Rlt_dec x y then true else false.

Definition rounded (rnd : R -> R) : Arith R := {|
  of_count n := rnd (INR n);
  lit q := rnd (Q2R q);
  fadd x y := rnd (x + y)%R;
  fsub x y := rnd (x - y)%R;
  fmul x y := rnd (x * y)%R;
  fdiv x y := rnd (x / y)%R;
  fsqrt x := rnd (sqrt x);
  fabs x := Rabs x;
  flt := Rltb;
|}.

Definition exact : Arith R := rounded (fun x => x).

(** ** NumPy reductions and array operations, on one-dimensional arrays *)

Section Numpy.
Context {F : Type} `{Arith F}.
Local Open Scope arith_scope.

(** [np.sum] over a one-dimensional float array is [np.add.reduce]: the
    identity [0.0] plus NumPy's pairwise summation of the elements
    ([pairwise_sum] in [numpy/core/src/umath/loops_utils.h.src]):
    - fewer than 8 elements are added to [0.0] in index order;
    - up to 128 elements ([PW_BLOCKSIZE]) are added into 8 accumulators,
      element [i] into accumulator [i mod 8], for as long as 8 more elements
      are left; the accumulators are added as
      [((r0+r1)+(r2+r3))+((r4+r5)+(r6+r7))] and the elements left over are
      added to that in index order;
    - a longer array is cut at [n/2] rounded down to a multiple of 8, and
      the sums of the two parts are added. *)
Fixpoint unrolled_sum (r0 r1 r2 r3 r4 r5 r6 r7 : F) (a : list F) : F :=
  match a with
  | x0 :: x1 :: x2 :: x3 :: x4 :: x5 :: x6 :: x7 :: a' =>
      unrolled_sum (r0 + x0) (r1 + x1) (r2 + x2) (r3 + x3)
                   (r4 + x4) (r5 + x5) (r6 + x6) (r7 + x7) a'
  | _ => foldl fadd (((r0 + r1) + (r2 + r3)) + ((r4 + r5) + (r6 + r7))) a
  end.

(** The first two cases: with fewer than 8 elements there are no
    accumulators to fill. *)
Definition block_sum (a : list F) : F :=
  match a with
  | r0 :: r1 :: r2 :: r3 :: r4 :: r5 :: r6 :: r7 :: a' =>
      unrolled_sum r0 r1 r2 r3 r4 r5 r6 r7 a'
  | _ => foldl fadd (of_count 0) a
  end.

(** [depth] bounds the number of nested cuts; [length a] is always enough
    ([pairwise_sum_depth] below). *)
Fixpoint pairwise_sum_rec (depth : nat) (a : list F) : F :=
  match depth with
  | S depth' =>
      let n := length a in
      if (128 <? n)%nat then
        let n2 := (n `div` 2 - (n `div` 2) `mod` 8)%nat in
        pairwise_sum_rec depth' (take n2 a) + pairwise_sum_rec depth' (drop n2 a)
      else block_sum a
  | 0 => block_sum a
  end.

Definition pairwise_sum (a : list F) : F := pairwise_sum_rec (length a) a.

Definition np_sum (a : list F) : F := of_count 0 + pairwise_sum a.

(** [np.mean(a)]: the sum divided by the element count. *)
Definition np_mean (a : list F) : F :=
  np_sum a / of_count (length a).

(** [np.std(a)] with its default [ddof=0]: the deviations from the mean
    are squared, averaged over the element count, and the root taken. *)
Definition np_std (a : list F) : F :=
  let arrmean := np_mean a in
  let x := map (fun v => (v - arrmean) * (v - arrmean)) a in
  fsqrt (np_sum x / of_count (length a)).

(** [np.cumsum(a)]: [out[0] = a[0]], [out[i] = out[i-1] + a[i]]. *)
Fixpoint cumsum_from (acc : F) (a : list F) : list F :=
  match a with
  | [] => []
  | x :: a' => let s := acc + x in s :: cumsum_from s a'
  end.

Definition np_cumsum (a : list F) : list F :=
  match a with
  | [] => []
  | x :: a' => x :: cumsum_from x a'
  end.

(** [np.arange(start, stop)] for ints. *)
Definition np_arange (start stop : nat) : list nat := seq start (stop - start).

(** [np.cumsum(rg_values) / np.arange(1, len(rg_values) + 1)]
    (compute_gyration.py, line 71). *)
Definition running_avg (rg_values : list F) : list F :=
  zip_with fdiv (np_cumsum rg_values)
                (map of_count (np_arange 1 (length rg_values + 1))).

(** [x ** 2] on a [float64] scalar is C's [pow(x, 2.0)], read here as the
    correctly rounded product (the C library's [pow] is accurate to under
    one unit in the last place; where a square overflows or underflows the
    two agree). *)
Definition square (x : F) : F := x * x.
End Numpy.

(** ** The kernels of [compute_gyration (1).py] *)

Inductive verdict := Excellent | Good | NeedsReview.

Section GFactorKernel.
Context {F : Type} `{Arith F}.
Local Open Scope arith_scope.

(** Lines 27-28: the equilibrated region is the last half of the series.
<<
    equilibrated_start = len(rg_values) // 2
    equilibrated_rg = rg_values[equilibrated_start:]
>> *)
Definition equilibrated_start (rg_values : list F) : nat :=
  length rg_values `div` 2.

Definition equilibrated_rg (rg_values : list F) : list F :=
  drop (equilibrated_start rg_values) rg_values.

(** Line 39: [expected_g = 0.445]. *)
Definition expected_g : F := lit 0.445.

(** Line 44: [rg_linear_theoretical = rg_tetracyclic / np.sqrt(expected_g)]. *)
Definition rg_linear_theoretical (rg_tetracyclic expected_g : F) : F :=
  rg_tetracyclic / fsqrt expected_g.

(** Line 47:
    [actual_g = (rg_tetracyclic ** 2) / (rg_linear_theoretical ** 2)]. *)
Definition actual_g (rg_tetracyclic expected_g : F) : F :=
  square rg_tetracyclic
  / square (rg_linear_theoretical rg_tetracyclic expected_g).

(** [abs(actual_g - expected_g)], printed on line 54 and tested on lines
    56 and 58. *)
Definition difference (actual_g expected_g : F) : F :=
  fabs (actual_g - expected_g).

(** Lines 56-61: the three-way verdict on the difference. *)
Definition classify (difference : F) : verdict :=
  if difference <? lit 0.05 then Excellent
  else if difference <? lit 0.1 then Good
  else NeedsReview.

Definition classification (actual_g expected_g : F) : verdict :=
  classify (difference actual_g expected_g).
End GFactorKernel.

(** ** The kernels of [compute_gyration.py] *)

Section StatsKernel.
Context {F : Type} `{Arith F}.
Local Open Scope arith_scope.

(** The standard error handed to [stats.t.interval] on line 37:
    [std_rg/np.sqrt(n)]. *)
Definition standard_error (std_rg : F) (n : nat) : F :=
  std_rg / fsqrt (of_count n).

(** How a distribution of the location-scale family turns a quantile [x]
    of the standard distribution into one of the shifted and scaled
    distribution: [x * scale + loc]. *)
Definition loc_scale (x loc scale : F) : F := x * scale + loc.
End StatsKernel.

(** ** Python programs: exceptions, the world, and the try statement *)

Inductive exn :=
  | FileNotFoundError (path : string)
  | ValueError
  | IndexError
  | OverflowError
  | OSError.

(** Every exception above is a subclass of [Exception]; the clause
    [except FileNotFoundError] takes the first, [except Exception] the rest. *)
Definition is_FileNotFoundError (e : exn) : bool :=
  match e with FileNotFoundError _ => true | _ => false end.

Inductive outcome (A : Type) :=
  | Returns (a : A)
  | Raises (e : exn).
Arguments Returns {A} a.
Arguments Raises {A} e.

(** What is handed to matplotlib before [savefig]. *)
Inductive artist :=
  | Plot (xs ys : list float)
  | AxHLine (y : float)
  | AxVLine (x : float)
  | Hist (data : list float) (bins : nat).

(** A value interpolated in an f-string, and a printed or written line: the
    f-string's template with the values of its fields, in order.  The
    templates below keep the ASCII text of the source's (its emoji, plus-minus
    and unit signs are left out). *)
Inductive field :=
  | Float (x : float)
  | Int (z : Z)
  | Str (s : string)
  | Err (e : exn).

Definition line : Type := string * list field.

(** A file on disk. *)
Inductive file :=
  | Table (rows : list (list float))  (* numeric text: its data rows, comment and blank lines left out *)
  | Text (content : string)           (* any other text *)
  | Figure (artists : list artist)    (* written by [plt.savefig] *)
  | Report (lines : list line).       (* written by the [with open(..., 'w')] block *)

Record world := World {
  files : gmap string file;
  stdout : list line;
}.

Definition py (A : Type) : Type := world -> outcome A * world.

Definition ret {A} (a : A) : py A := fun w => (Returns a, w).
Definition raise {A} (e : exn) : py A := fun w => (Raises e, w).
Definition bind {A B} (m : py A) (k : A -> py B) : py B :=
  fun w => match m w with
           | (Returns a, w') => k a w'
           | (Raises e, w') => (Raises e, w')
           end.
Definition lift {A} (o : outcome A) : py A := fun w => (o, w).

#[global] Instance py_ret : MRet py := @ret.
#[global] Instance py_bind : MBind py := fun A B k m => bind m k.

(** [try: body / except FileNotFoundError: h1 / except Exception as e: h2 e] *)
Definition try_except {A} (body : py A) (h1 : py A) (h2 : exn -> py A) : py A :=
  fun w => match body w with
           | (Returns a, w') => (Returns a, w')
           | (Raises e, w') => if is_FileNotFoundError e then h1 w' else h2 e w'
           end.

Definition print (template : string) (values : list field) : py unit :=
  fun w => (Returns tt, World (files w) (stdout w ++ [(template, values)])).

(** [with open(path, 'w') as f: f.write(...) ...]: the file is created or
    replaced. *)
Definition write_file (path : string) (content : file) : py unit :=
  fun w => (Returns tt, World (<[path := content]> (files w)) (stdout w)).

(** *** NumPy arrays as [np.loadtxt] returns them *)

Inductive ndarray :=
  | Array0 (x : float)                  (* shape () *)
  | Array1 (a : list float)             (* shape (n,) *)
  | Array2 (rows : list (list float)).  (* shape (n, m) *)

Definition rectangular (rows : list (list float)) : bool :=
  match rows with
  | [] => true
  | r :: rows' => forallb (fun r' => length r' =? length r)%nat rows'
  end.

(** [np.loadtxt] with the default [ndmin=0] squeezes the axes of length one:
    a file of one row gives a one-dimensional array, as does a file of one
    column; a file without data rows gives an empty one-dimensional array. *)
Definition squeeze (rows : list (list float)) : ndarray :=
  match rows with
  | [] => Array1 []
  | [[x]] => Array0 x
  | [r] => Array1 r
  | r :: _ => if (length r =? 1)%nat then Array1 (concat rows) else Array2 rows
  end.

(** [np.loadtxt(filename)]: [FileNotFoundError] when the path does not
    exist, [ValueError] when the text is not numeric or its rows have
    different numbers of columns. *)
Definition np_loadtxt (filename : string) : py ndarray :=
  fun w => match files w !! filename with
           | None => (Raises (FileNotFoundError filename), w)
           | Some (Table rows) =>
               if rectangular rows then (Returns (squeeze rows), w)
               else (Raises ValueError, w)
           | Some _ => (Raises ValueError, w)
           end.

(** [data[:, j]] *)
Definition column (data : ndarray) (j : nat) : outcome (list float) :=
  match data with
  | Array2 rows =>
      match mapM (fun r : list float => r !! j) rows with
      | Some c => Returns c
      | None => Raises IndexError
      end
  | _ => Raises IndexError
  end.

(** [a[i]] for [0 <= i] and [a[-1]] *)
Definition item (a : list float) (i : nat) : outcome float :=
  match a !! i with
  | Some x => Returns x
  | None => Raises IndexError
  end.

Definition item_last (a : list float) : outcome float :=
  match last a with
  | Some x => Returns x
  | None => Raises IndexError
  end.

(** [int(x)] of a float: truncation; a NaN and the infinities raise. *)
Definition py_int (x : float) : outcome Z :=
  match Prim2SF x with
  | S754_nan => Raises ValueError
  | S754_infinity _ => Raises OverflowError
  | S754_zero _ => Returns 0%Z
  | S754_finite s m e => Returns (cond_Zopp s (Z.shiftl (Zpos m) e))
  end.

(** The line feed: the main programs start a line with ["\n"]. *)
Definition newline : string := String (Ascii.ascii_of_nat 10) EmptyString.

(** ** [compute_gyration (1).py] *)

Module GFactor.
Section Script.
#[local] Existing Instance binary64.

(** matplotlib is outside the scripts: what it does with the artists it is
    handed, up to and including [savefig], is a parameter.  [None]: the
    figure was drawn and saved; [Some e]: one of its calls raised [e]. *)
Variable matplotlib : list artist -> option exn.

Definition savefig (path : string) (artists : list artist) : py unit :=
  match matplotlib artists with
  | Some e => raise e
  | None => write_file path (Figure artists)
  end.

(** Lines 14-18, before the [try]. *)
Definition banner : py unit :=
  print "============================================================" [];;
  print "GROUP 6 TETRACYCLIC POLYMER G-FACTOR ANALYSIS" [];;
  print "Expected g-factor: 0.445" [];;
  print "Reference: Linear polymer (g-factor = 1.0)" [];;
  print "============================================================" [].

Definition verdict_line (v : verdict) : line :=
  match v with
  | Excellent => ("EXCELLENT: Matches expected value!", [])
  | Good => ("GOOD: Close to expected value", [])
  | NeedsReview => ("NEEDS REVIEW: Significant difference from expected", [])
  end.

Definition result : Type := option float * option float * option float.

(** Lines 21-104: the body of the [try]. *)
Definition body (filename : string) : py result :=
  data ← np_loadtxt filename;
  timesteps ← lift (column data 0);
  rg_values ← lift (column data 1);
  let equilibrated_start := equilibrated_start rg_values in
  let equilibrated_rg := equilibrated_rg rg_values in
  let avg_rg := np_mean equilibrated_rg in
  let std_rg := np_std equilibrated_rg in
  t_last ← lift (item_last timesteps);
  steps ← lift (py_int t_last);
  print "Simulation timesteps: {}" [Int steps];;
  print "Total data points: {}" [Int (Z.of_nat (length rg_values))];;
  print "Equilibrated region: last {} points" [Int (Z.of_nat (length equilibrated_rg))];;
  print "------------------------------------------------------------" [];;
  let expected_g := expected_g in
  let rg_tetracyclic := avg_rg in
  let rg_linear_theoretical := rg_linear_theoretical rg_tetracyclic expected_g in
  let actual_g := actual_g rg_tetracyclic expected_g in
  print "RESULTS:" [];;
  print "Average Rg (tetracyclic): {:.3f} +- {:.3f}" [Float avg_rg; Float std_rg];;
  print "Theoretical Rg (linear):  {:.3f}" [Float rg_linear_theoretical];;
  print "Calculated g-factor:      {:.3f}" [Float actual_g];;
  print "Expected g-factor:        {:.3f}" [Float expected_g];;
  print "Difference:               {:.3f}" [Float (difference actual_g expected_g)];;
  (let '(template, values) := verdict_line (classification actual_g expected_g) in
   print template values);;
  print "------------------------------------------------------------" [];;
  t_start ← lift (item timesteps equilibrated_start);
  savefig "rg_analysis_results.png"
    [Plot timesteps rg_values; AxHLine avg_rg; AxVLine t_start;
     Hist equilibrated_rg 30; AxVLine avg_rg];;
  print "Plot saved as: rg_analysis_results.png" [];;
  steps' ← lift (py_int t_last);
  write_file "g_factor_results.txt" (Report [
    ("TETRACYCLIC ALPHA POLYMER G-FACTOR ANALYSIS", []);
    ("==================================================", []);
    ("Average Rg (tetracyclic): {:.6f} +- {:.6f}", [Float avg_rg; Float std_rg]);
    ("Theoretical Rg (linear):  {:.6f}", [Float rg_linear_theoretical]);
    ("Calculated g-factor:      {:.6f}", [Float actual_g]);
    ("Expected g-factor:        {:.6f}", [Float expected_g]);
    ("Difference:               {:.6f}", [Float (difference actual_g expected_g)]);
    ("Simulation timesteps:     {}", [Int steps']);
    ("Data points analyzed:     {}", [Int (Z.of_nat (length equilibrated_rg))])]);;
  print "Results saved as: g_factor_results.txt" [];;
  mret (Some actual_g, Some avg_rg, Some std_rg).

(** Lines 106-112: the two handlers. *)
Definition not_found (filename : string) : py result :=
  print "ERROR: {} not found!" [Str filename];;
  print "Make sure LAMMPS simulation completed successfully." [];;
  mret (None, None, None).

Definition other_error (e : exn) : py result :=
  print "ERROR: {}" [Err e];;
  mret (None, None, None).

Definition analyze_gyration_data (filename : string) : py result :=
  banner;;
  try_except (body filename) (not_found filename) other_error.

(** Lines 114-121: the main program.  It prints the closing lines when the
    first value returned is not [None].
<<
    g_factor, avg_rg, std_rg = analyze_gyration_data()
    if g_factor is not None:
>> *)
Definition main : py unit :=
  '(g_factor, avg_rg, std_rg) ← analyze_gyration_data "gyration.txt";
  match g_factor with
  | Some g_factor =>
      print (newline +:+ "============================================================") [];;
      print "TETRACYCLIC POLYMER PROJECT - COMPLETE!" [];;
      print "Final g-factor: {:.3f} (Expected: 0.445)" [Float g_factor];;
      print "============================================================" []
  | None => mret tt
  end.
End Script.
End GFactor.

(** ** [compute_gyration.py] *)

Module Stats.
Section Script.
#[local] Existing Instance binary64.
Local Open Scope float_scope.

(** As in [GFactor]: matplotlib's calls up to [savefig].  The [plt.show()]
    that follows it is taken to return. *)
Variable matplotlib : list artist -> option exn.

(** [scipy.special.stdtrit df q]: the quantile function of Student's t
    distribution with [df] degrees of freedom, which [scipy.stats.t] uses
    for [_ppf].  SciPy is outside the scripts: a parameter. *)
Variable stdtrit : Z -> float -> float.

Definition savefig (path : string) (artists : list artist) : py unit :=
  match matplotlib artists with
  | Some e => raise e
  | None => write_file path (Figure artists)
  end.

(** [np.min], [np.max]: a NaN wins; an empty array raises. *)
Definition np_minimum (a b : float) : float :=
  if (a <=? b) || is_nan a then a else b.

Definition np_maximum (a b : float) : float :=
  if (b <=? a) || is_nan a then a else b.

Definition np_min (a : list float) : outcome float :=
  match a with
  | [] => Raises ValueError
  | x :: a' => Returns (foldl np_minimum x a')
  end.

Definition np_max (a : list float) : outcome float :=
  match a with
  | [] => Raises ValueError
  | x :: a' => Returns (foldl np_maximum x a')
  end.

(** [scipy.stats.t.ppf(q, df, loc, scale)]: NaN unless the degrees of
    freedom and the scale are positive and the location is a number;
    otherwise the standard quantile scaled and shifted (the ends of the
    support at [q = 0] and [q = 1]). *)
Definition t_ppf (q : float) (df : Z) (loc scale : float) : float :=
  let cond0 := (0 <? df)%Z && (0 <? scale) && (loc =? loc) in
  if negb cond0 then nan
  else if q =? 0 then loc_scale neg_infinity loc scale
  else if q =? 1 then loc_scale infinity loc scale
  else if (0 <? q) && (q <? 1) then loc_scale (stdtrit df q) loc scale
  else nan.

(** [scipy.stats.t.interval(confidence, df, loc, scale)] *)
Definition t_interval (confidence : float) (df : Z) (loc scale : float)
  : outcome (float * float) :=
  if (1 <? confidence) || (confidence <? 0) then Raises ValueError
  else
    let q1 := (1 - confidence) / 2 in
    let q2 := (1 + confidence) / 2 in
    Returns (t_ppf q1 df loc scale, t_ppf q2 df loc scale).

(** Lines 36-37:
<<
    n = len(rg_values)
    conf_int = stats.t.interval(0.95, n-1, loc=mean_rg, scale=std_rg/np.sqrt(n))
>> *)
Definition conf_int (rg_values : list float) : outcome (float * float) :=
  let mean_rg := np_mean rg_values in
  let std_rg := np_std rg_values in
  let n := length rg_values in
  t_interval (lit 0.95) (Z.of_nat n - 1) mean_rg (standard_error std_rg n).

(** Lines 16-19, before the [try]. *)
Definition banner : py unit :=
  print "============================================================" [];;
  print "GROUP 6 TETRACYCLIC POLYMER ANALYSIS" [];;
  print "Expected g-factor: 0.445" [];;
  print "============================================================" [].

(** The dictionary returned on line 99. *)
Record summary := Summary {
  mean_rg : float;
  std_rg : float;
  conf_int_ : float * float;
  n_samples : nat;
}.

(** Lines 22-104: the body of the [try]. *)
Definition body (filename : string) : py (option summary) :=
  data ← np_loadtxt filename;
  timesteps ← lift (column data 0);
  rg_values ← lift (column data 1);
  print "Loaded {} data points" [Int (Z.of_nat (length rg_values))];;
  let mean_rg := np_mean rg_values in
  let std_rg := np_std rg_values in
  min_rg ← lift (np_min rg_values);
  max_rg ← lift (np_max rg_values);
  let n := length rg_values in
  ci ← lift (conf_int rg_values);
  print "Radius of Gyration Results:" [];;
  print "Mean R_g:     {:.4f} +- {:.4f}" [Float mean_rg; Float std_rg];;
  print "Min R_g:      {:.4f}" [Float min_rg];;
  print "Max R_g:      {:.4f}" [Float max_rg];;
  print "95% CI:       [{:.4f}, {:.4f}]" [Float ci.1; Float ci.2];;
  print "Samples:      {}" [Int (Z.of_nat n)];;
  savefig "rg_analysis_results.png"
    [Plot timesteps rg_values; AxHLine mean_rg;
     Hist rg_values 50; AxVLine mean_rg;
     Plot timesteps (running_avg rg_values); AxHLine mean_rg];;
  write_file "simulation_results.txt" (Report [
    ("GROUP 6 TETRACYCLIC POLYMER - SIMULATION RESULTS", []);
    ("==================================================", []);
    ("Expected g-factor from paper: 0.445", []);
    ("Mean radius of gyration: {:.6f} +- {:.6f}", [Float mean_rg; Float std_rg]);
    ("95% confidence interval: [{:.6f}, {:.6f}]", [Float ci.1; Float ci.2]);
    ("Number of samples: {}", [Int (Z.of_nat n)]);
    ("Minimum R_g: {:.6f}", [Float min_rg]);
    ("Maximum R_g: {:.6f}", [Float max_rg]);
    ("Note: Compare with theoretical calculation from graph theory", [])]);;
  print "Results saved to: simulation_results.txt" [];;
  print "Plots saved to: rg_analysis_results.png" [];;
  mret (Some (Summary mean_rg std_rg ci n)).

(** Lines 106-112: the two handlers. *)
Definition not_found (filename : string) : py (option summary) :=
  print "Error: {} not found!" [Str filename];;
  print "Make sure LAMMPS simulation completed successfully." [];;
  mret None.

Definition other_error (e : exn) : py (option summary) :=
  print "Error analyzing data: {}" [Err e];;
  mret None.

Definition analyze_gyration_data (filename : string) : py (option summary) :=
  banner;;
  try_except (body filename) (not_found filename) other_error.

(** Lines 114-118: the main program.  [if results:] is true of the
    dictionary the analysis returns, which has four keys, and false of
    [None].
<<
    results = analyze_gyration_data()
    if results:
>> *)
Definition main : py unit :=
  results ← analyze_gyration_data "gyration_data.txt";
  match results with
  | Some _ =>
      print (newline +:+ "Analysis completed successfully!") [];;
      print "Compare these results with theoretical predictions!" []
  | None => mret tt
  end.
End Script.
End Stats.

(** ** Notions the properties are stated with *)

(** The sum of an array in index order, starting from its first element:
    what [np.cumsum] has accumulated at the array's last index. *)
Definition ordered_sum {F : Type} `{Arith F} (a : list F) : F :=
  match a with
  | [] => of_count 0
  | x :: a' => foldl fadd x a'
  end.

(** The sum of a list of reals. *)
Definition Rsum (l : list R) : R := foldr Rplus 0%R l.

(** The population standard deviation in the spec's words (section 4.3):
    the root of the mean squared deviation from the mean, the sum of the
    squares divided by [N], not by [N - 1]. *)
Definition population_std (l : list R) : R :=
  let N := INR (length l) in
  let mu := (Rsum l / N)%R in
  sqrt (Rsum (map (fun x => (x - mu) * (x - mu))%R l) / N).

(** The unit roundoff of binary64: away from overflow and underflow, the
    relative error of one correctly rounded operation is at most [2^-53]. *)
Definition unit_roundoff : R := (/ 2 ^ 53)%R.

(** [1 + 2u] bounds both [1 + u] and [1 / (1 - u)]. *)
Definition growth : R := (1 + 2 * unit_roundoff)%R.

(** [y] is [x] after at most [k] roundings: each is within the factor
    [growth ^ k] of the other. *)
Definition close (k : nat) (x y : R) : Prop :=
  (0 < x ∧ 0 < y ∧ y <= x * growth ^ k ∧ x <= y * growth ^ k)%R.

(** [is_finite]: a zero or a finite non-zero value. *)
Definition SF_finite (x : spec_float) : Prop :=
  match x with S754_zero _ | S754_finite _ _ _ => True | _ => False end.

(** The lines the scripts print before their [try]. *)
Definition gfactor_banner_lines : list line :=
  [("============================================================", []);
   ("GROUP 6 TETRACYCLIC POLYMER G-FACTOR ANALYSIS", []);
   ("Expected g-factor: 0.445", []);
   ("Reference: Linear polymer (g-factor = 1.0)", []);
   ("============================================================", [])].

Definition stats_banner_lines : list line :=
  [("============================================================", []);
   ("GROUP 6 TETRACYCLIC POLYMER ANALYSIS", []);
   ("Expected g-factor: 0.445", []);
   ("============================================================", [])].

(** A table that loads as a two-dimensional array with the two columns the
    scripts select: rows of one width, at least two of them, with at least
    two columns. *)
Definition two_columns (rows : list (list float)) : bool :=
  rectangular rows && (2 <=? length rows)
  && match rows with r :: _ => 2 <=? length r | [] => false end.

(** Column [j] of a table: what [data[:, j]] selects from such an array. *)
Definition nth_column (j : nat) (rows : list (list float)) : list float :=
  omap (λ r : list float, r !! j) rows.

(** The files each script writes. *)
Definition gfactor_outputs : list string :=
  ["rg_analysis_results.png"; "g_factor_results.txt"].

Definition stats_outputs : list string :=
  ["rg_analysis_results.png"; "simulation_results.txt"].



(** What a run leaves behind: the files [written], in the order they were
    written, and the lines [out] printed. *)
Definition write_all (written : list (string * file)) (fs : gmap string file)
  : gmap string file :=
  foldl (λ fs pc, <[pc.1 := pc.2]> fs) fs written.

Definition after (written : list (string * file)) (out : list line) (w : world)
  : world :=
  World (write_all written (files w)) (stdout w ++ out).

(** A program that reads nothing of the world but the file [filename], and
    writes no file outside [outputs]: what it returns or raises, the files
    it writes and the lines it prints are determined by the content of
    [filename] ([None]: no such file). *)
Definition reads_only (filename : string) (outputs : list string) {A} (m : py A)
  : Prop :=
  ∀ content : option file,
    ∃ o written out,
      Forall (λ pc, pc.1 ∈ outputs) written
      ∧ ∀ w, files w !! filename = content → m w = (o, after written out w).

(** The series of the specification's scenario as a file on disk, a
    plotting library that works and one that raises, and a table of
    Student's t quantiles for three degrees of freedom. *)
Definition scenario_rows : list (list float) :=
  [[0; 10]; [1; 10]; [2; 10]; [3; 10]]%float.

Definition scenario_world (filename : string) : world :=
  World {[filename := Table scenario_rows]} [].

Definition both_world : world :=
  World {["gyration.txt" := Table scenario_rows;
          "gyration_data.txt" := Table scenario_rows]} [].

Definition plt_works (_ : list artist) : option exn := None.

Definition plt_raises (e : exn) (_ : list artist) : option exn := Some e.

Definition t_table (_ : Z) (q : float) : float :=
  if (q <? 0.5)%float then (-3.182)%float else 3.182%float.

(** ** Tactics *)

(** [SpecFloat]'s integer operations are the core library's; [std_Z] renames
    them to the standard library's, which [lia] and the lemmas of [Z] know. *)
Ltac std_Z :=
  change IntDef.Z.max with Z.max in *; change IntDef.Z.min with Z.min in *;
  change IntDef.Z.sub with Z.sub in *; change IntDef.Z.add with Z.add in *;
  change IntDef.Z.shiftl with Z.shiftl in *;
  change IntDef.Z.div_eucl with Z.div_eucl in *;
  change IntDef.Z.eqb with Z.eqb in *; change IntDef.Z.leb with Z.leb in *;
  change IntDef.Z.even with Z.even in *; change IntDef.Z.mul with Z.mul in *;
  change IntDef.Z.compare with Z.compare in *;
  change IntDef.Z.opp with Z.opp in *.

(** The operations of an instance, unfolded. *)
Ltac binary64_ops :=
  change (@fadd float binary64) with PrimFloat.add in *;
  change (@fsub float binary64) with PrimFloat.sub in *;
  change (@fmul float binary64) with PrimFloat.mul in *;
  change (@fdiv float binary64) with PrimFloat.div in *;
  change (@fsqrt float binary64) with PrimFloat.sqrt in *;
  change (@fabs float binary64) with PrimFloat.abs in *;
  change (@flt float binary64) with PrimFloat.ltb in *.

Ltac exact_arith :=
  cbv [of_count lit fadd fsub fmul fdiv fsqrt fabs flt exact rounded] in *.

(** * Properties *)

(** ** The equilibration window (lines 27-28 of [compute_gyration (1).py]) *)

Section Window.
Context {F : Type}.
Implicit Types rg_values : list F.

Lemma equilibrated_rg_length rg_values :
  length (equilibrated_rg rg_values)
  = length rg_values - length rg_values `div` 2.
Proof. unfold equilibrated_rg, equilibrated_start. apply length_drop. Qed.

Lemma equilibrated_rg_lookup rg_values i :
  equilibrated_rg rg_values !! i
  = rg_values !! (length rg_values `div` 2 + i).
Proof. unfold equilibrated_rg, equilibrated_start. apply lookup_drop. Qed.

Lemma equilibrated_start_lt rg_values :
  rg_values ≠ [] → equilibrated_start rg_values < length rg_values.
Proof.
  intros Hne. unfold equilibrated_start.
  destruct rg_values as [|x l]; [done|]. simpl length.
  apply Nat.div_lt; lia.
Qed.
End Window.

(** The window of a non-empty series is not empty. *)
Lemma equilibrated_rg_nonempty {F : Type} (rg_values : list F) :
  rg_values ≠ [] → equilibrated_rg rg_values ≠ [].
Proof.
  intros Hne Hnil. apply (f_equal length) in Hnil.
  rewrite equilibrated_rg_length in Hnil. change (length (@nil F)) with 0 in Hnil.
  pose proof (equilibrated_start_lt rg_values Hne) as Hlt.
  unfold equilibrated_start in Hlt. lia.
Qed.

(** ** Sums *)

Section PairwiseSum.
Context {F : Type} `{Arith F}.
Implicit Types a : list F.

(** The cut of an array of more than 128 elements leaves two shorter,
    non-empty parts. *)
Lemma pairwise_cut n :
  128 < n →
  0 < n `div` 2 - (n `div` 2) `mod` 8 < n.
Proof.
  intros Hn.
  pose proof (Nat.mod_upper_bound (n `div` 2) 8 ltac:(lia)) as Hm.
  pose proof (Nat.div_lt n 2 ltac:(lia) ltac:(lia)) as Hd.
  assert (64 ≤ n `div` 2) by (apply Nat.div_le_lower_bound; lia).
  lia.
Qed.

(** More depth than the length changes nothing: the cuts never run out of
    depth. *)
Lemma pairwise_sum_depth depth depth' a :
  length a ≤ depth → depth ≤ depth' →
  pairwise_sum_rec depth' a = pairwise_sum_rec depth a.
Proof.
  revert depth' a. induction depth as [|depth IH]; intros depth' a Ha Hd.
  - destruct a; [|simpl in Ha; lia].
    destruct depth'; reflexivity.
  - destruct depth' as [|depth']; [lia|]. cbn [pairwise_sum_rec]. cbv zeta.
    destruct (Nat.ltb_spec 128 (length a)) as [Hn|Hn]; [|done].
    pose proof (pairwise_cut _ Hn) as Hc.
    rewrite !(IH depth'); [done| |lia| |lia].
    + rewrite length_drop. lia.
    + rewrite length_take. lia.
Qed.

Lemma pairwise_sum_unfold a :
  pairwise_sum a
  = if 128 <? length a then
      let n2 := length a `div` 2 - (length a `div` 2) `mod` 8 in
      fadd (pairwise_sum (take n2 a)) (pairwise_sum (drop n2 a))
    else block_sum a.
Proof.
  unfold pairwise_sum at 1. destruct a as [|x a]; [done|].
  set (l := x :: a).
  change (pairwise_sum_rec (S (length a)) l = 
    if 128 <? length l then
      let n2 := length l `div` 2 - (length l `div` 2) `mod` 8 in
      fadd (pairwise_sum (take n2 l)) (pairwise_sum (drop n2 l))
    else block_sum l).
  cbn [pairwise_sum_rec]. cbv zeta.
  destruct (Nat.ltb_spec 128 (length l)) as [Hn|Hn]; [|done].
  pose proof (pairwise_cut _ Hn) as Hc. unfold pairwise_sum.
  assert (Hl : length l = S (length a)) by done.
  set (n2 := length l `div` 2 - (length l `div` 2) `mod` 8) in *.
  rewrite (pairwise_sum_depth (length (take n2 l)) (length a));
    [|done|rewrite length_take; lia].
  rewrite (pairwise_sum_depth (length (drop n2 l)) (length a));
    [done|done|rewrite length_drop; lia].
Qed.
End PairwiseSum.

(** ** The running average (line 71 of [compute_gyration.py]) *)

Section RunningAverage.
Context {F : Type} `{Arith F}.
Implicit Types a rg_values : list F.
Local Open Scope arith_scope.

Lemma cumsum_from_length acc a : length (cumsum_from acc a) = length a.
Proof. revert acc; induction a as [|x a IH]; intros acc; simpl; [done|]. by rewrite IH. Qed.

Lemma np_cumsum_length a : length (np_cumsum a) = length a.
Proof. destruct a; simpl; [done|]. by rewrite cumsum_from_length. Qed.

Lemma cumsum_from_lookup acc a i :
  i < length a →
  cumsum_from acc a !! i = Some (foldl fadd acc (take (S i) a)).
Proof.
  revert acc i; induction a as [|x a IH]; intros acc i Hi; simpl in *; [lia|].
  destruct i as [|i]; simpl.
  - by destruct a.
  - apply IH. lia.
Qed.

(** Each partial sum is the sum, in index order, of the prefix it closes. *)
Lemma np_cumsum_lookup a i :
  i < length a → np_cumsum a !! i = Some (ordered_sum (take (S i) a)).
Proof.
  destruct a as [|x a]; simpl; [lia|]. intros Hi.
  destruct i as [|i]; simpl.
  - by destruct a.
  - apply cumsum_from_lookup. lia.
Qed.

Lemma np_arange_length start stop :
  length (np_arange start stop) = (stop - start)%nat.
Proof. apply length_seq. Qed.

Lemma running_avg_length rg_values :
  length (running_avg rg_values) = length rg_values.
Proof.
  unfold running_avg.
  rewrite length_zip_with, np_cumsum_length, length_map, np_arange_length. lia.
Qed.

Lemma running_avg_lookup rg_values i :
  i < length rg_values →
  running_avg rg_values !! i
  = Some (ordered_sum (take (S i) rg_values) / of_count (S i)).
Proof.
  intros Hi. unfold running_avg, np_arange.
  rewrite lookup_zip_with, np_cumsum_lookup by done. simpl.
  rewrite list_lookup_fmap, lookup_seq_lt by lia. reflexivity.
Qed.

Lemma running_avg_last rg_values :
  rg_values ≠ [] →
  last (running_avg rg_values)
  = Some (ordered_sum rg_values / of_count (length rg_values)).
Proof.
  intros Hne.
  assert (0 < length rg_values) as Hlen by (destruct rg_values; simpl; [done|lia]).
  rewrite last_lookup, running_avg_length, running_avg_lookup by lia.
  replace (S (Init.Nat.pred (length rg_values))) with (length rg_values) by lia.
  rewrite firstn_all. reflexivity.
Qed.
End RunningAverage.

(** ** Facts of the binary64 specification

    [SpecFloat] states the operations on sign, mantissa and exponent. *)

Section SpecFloat.
Local Open Scope Z_scope.

(** [2^52], the mantissa of [1.0 = 2^52 * 2^-52]. *)
Lemma div_eucl_shift (m : positive) (s : Z) :
  0 <= s →
  Z.div_eucl (Z.shiftl (Zpos m) (52 + s)) 4503599627370496
  = (Z.shiftl (Zpos m) s, 0).
Proof.
  intros Hs.
  assert (H : Z.shiftl (Z.pos m) (52 + s)
              = 4503599627370496 * Z.shiftl (Zpos m) s + 0).
  { rewrite !Z.shiftl_mul_pow2 by lia. rewrite Z.pow_add_r by lia.
    change (2 ^ 52) with 4503599627370496. ring. }
  pose proof (Z.div_eucl_eq (Z.shiftl (Z.pos m) (52 + s)) 4503599627370496
                ltac:(lia)) as E.
  pose proof (Z.mod_pos_bound (Z.shiftl (Z.pos m) (52 + s)) 4503599627370496
                ltac:(lia)) as B.
  unfold Z.modulo in B.
  destruct (Z.div_eucl (Z.shiftl (Z.pos m) (52 + s)) 4503599627370496) as [q r].
  assert (q = Z.shiftl (Zpos m) s ∧ r = 0) as [-> ->]; [|reflexivity].
  rewrite H in E at 1. nia.
Qed.

(** Dividing a canonical mantissa by one: the quotient is the mantissa,
    with one more bit unless the exponent is the smallest. *)
Lemma SFdiv_core_one m e :
  SpecFloat.bounded prec emax m e = true →
  SFdiv_core_binary prec emax (Zpos m) e 4503599627370496 (-52)
  = if e =? -1074 then (Zpos m, e, loc_Exact)
    else (Zpos (xO m), e - 1, loc_Exact).
Proof.
  unfold SpecFloat.bounded, canonical_mantissa, fexp, SpecFloat.emin, prec, emax.
  intros Hv. apply andb_prop in Hv as [Hc Hb]. std_Z.
  apply Z.eqb_eq in Hc. apply Z.leb_le in Hb.
  unfold SFdiv_core_binary.
  change (Zdigits2 4503599627370496) with 53.
  change (Zdigits2 (Z.pos m)) with (Z.pos (digits2_pos m)).
  set (d := Z.pos (digits2_pos m)) in *.
  assert (Hd : 0 < d) by (subst d; lia).
  unfold fexp, SpecFloat.emin. std_Z. cbv zeta.
  destruct (Z.eqb_spec e (-1074)) as [He|He].
  - replace (Z.min (Z.max (d + e - (53 + -52) - 53) (3 - 1024 - 53)) (e - -52))
      with e by lia.
    replace (e - -52 - e) with (52 + 0) by lia.
    change (52 + 0) with 52. cbv iota. change 52 with (52 + 0) at 1.
    rewrite (div_eucl_shift m 0) by lia. reflexivity.
  - replace (Z.min (Z.max (d + e - (53 + -52) - 53) (3 - 1024 - 53)) (e - -52))
      with (e - 1) by lia.
    replace (e - -52 - (e - 1)) with (52 + 1) by lia.
    change (52 + 1) with 53. cbv iota. change 53 with (52 + 1) at 1.
    rewrite (div_eucl_shift m 1) by lia. reflexivity.
Qed.

(** Rounding an exact canonical value leaves it as it is. *)
Lemma binary_round_aux_exact sx m e :
  SpecFloat.bounded prec emax m e = true →
  binary_round_aux prec emax sx (Zpos m) e loc_Exact = S754_finite sx m e.
Proof.
  unfold SpecFloat.bounded, canonical_mantissa, fexp, SpecFloat.emin, prec, emax.
  intros Hv. apply andb_prop in Hv as [Hc Hb]. std_Z.
  apply Z.eqb_eq in Hc.
  unfold binary_round_aux, shr_fexp, fexp, SpecFloat.emin.
  change (Zdigits2 (Z.pos m)) with (Z.pos (digits2_pos m)). std_Z.
  rewrite Hc, Z.sub_diag.
  cbn [shr shr_record_of_loc shr_m loc_of_shr_record round_nearest_even].
  change (Zdigits2 (Z.pos m)) with (Z.pos (digits2_pos m)).
  rewrite Hc, Z.sub_diag. cbn [shr shr_m].
  std_Z. rewrite Hb. reflexivity.
Qed.

Lemma binary_round_aux_exact_xO sx m e :
  SpecFloat.bounded prec emax m e = true → e ≠ -1074 →
  binary_round_aux prec emax sx (Zpos (xO m)) (e - 1) loc_Exact
  = S754_finite sx m e.
Proof.
  unfold SpecFloat.bounded, canonical_mantissa, fexp, SpecFloat.emin, prec, emax.
  intros Hv He. apply andb_prop in Hv as [Hc Hb]. std_Z.
  apply Z.eqb_eq in Hc.
  unfold binary_round_aux, shr_fexp, fexp, SpecFloat.emin.
  change (Zdigits2 (Z.pos m~0)) with (Z.pos (Pos.succ (digits2_pos m))). std_Z.
  rewrite Pos2Z.inj_succ.
  replace (Z.max (Z.succ (Z.pos (digits2_pos m)) + (e - 1) - 53) (3 - 1024 - 53)
           - (e - 1)) with 1 by lia.
  cbn [shr shr_record_of_loc SpecFloat.iter_pos shr_1 shr_m loc_of_shr_record
       round_nearest_even orb].
  change (Zdigits2 (Z.pos m)) with (Z.pos (digits2_pos m)). std_Z.
  replace (e - 1 + 1) with e by lia.
  rewrite Hc, Z.sub_diag. cbn [shr shr_m].
  std_Z. rewrite Hb. reflexivity.
Qed.

Lemma SFdiv_one x :
  valid_binary x = true →
  SF64div x (S754_finite false 4503599627370496 (-52)) = x.
Proof.
  destruct x as [s|s| |s m e]; intros Hv; try (by destruct s); try reflexivity.
  unfold SF64div, SFdiv. cbn [SpecFloat.valid_binary] in Hv.
  rewrite (SFdiv_core_one m e Hv).
  replace (xorb s false) with s by (by destruct s).
  destruct (Z.eqb_spec e (-1074)) as [He|He].
  - apply binary_round_aux_exact, Hv.
  - apply binary_round_aux_exact_xO; assumption.
Qed.

Lemma SFcompare_antisym x y :
  SFcompare y x = option_map CompOpp (SFcompare x y).
Proof.
  destruct x as [sx|sx| |sx mx ex], y as [sy|sy| |sy my ey];
    try destruct sx; try destruct sy; simpl; try reflexivity;
    rewrite (Z.compare_antisym ex ey);
    destruct (ex ?= ey)%Z; simpl; try reflexivity;
    rewrite !Pos.compare_cont_spec; simpl;
    rewrite (Pos.compare_antisym mx my);
    destruct (mx ?= my)%positive; reflexivity.
Qed.

(** Two finite values that compare equal are both zero or the same. *)
Lemma SFcompare_Eq_finite x y :
  SFcompare x y = Some Eq →
  match y with
  | S754_zero _ => ∃ s, x = S754_zero s
  | S754_finite _ _ _ => x = y
  | _ => True
  end.
Proof.
  destruct x as [sx|sx| |sx mx ex], y as [sy|sy| |sy my ey];
    try destruct sx; try destruct sy; cbn [SFcompare]; try done; eauto;
    destruct (Z.compare_spec ex ey) as [->| |]; try done;
    rewrite Pos.compare_cont_spec; cbn [Pos.switch_Eq];
    destruct (Pos.compare_spec mx my) as [->| |]; done.
Qed.

(** The difference of a finite value and one that compares equal is a
    zero. *)
Lemma SFsub_Eq_zero x y :
  SFcompare x y = Some Eq →
  match y with S754_zero _ | S754_finite _ _ _ => True | _ => False end →
  ∃ s, SF64sub y x = S754_zero s.
Proof.
  intros Hc Hy. pose proof (SFcompare_Eq_finite x y Hc) as Hx.
  destruct y as [sy| | |sy my ey]; try done.
  - destruct Hx as [sx ->]. destruct sx, sy; cbn; eauto.
  - subst x. unfold SF64sub, SFsub. cbv zeta. std_Z.
    rewrite Z.sub_diag. cbn [binary_normalize]. eauto.
Qed.
End SpecFloat.

(** ** Facts of binary64 arithmetic

    The primitive operations are specified by [FloatAxioms] on
    [spec_float], the sign-mantissa-exponent view of a binary64 value. *)

Section Binary64.
#[local] Existing Instance binary64.
Local Open Scope float_scope.

(** The literals of the scripts, as Python reads them. *)
Lemma lit_0_445 : lit 0.445 = 0.445.
Proof. reflexivity. Qed.

Lemma lit_0_05 : lit 0.05 = 0.05.
Proof. reflexivity. Qed.

Lemma lit_0_1 : lit 0.1 = 0.1.
Proof. reflexivity. Qed.

Lemma lit_0_95 : lit 0.95 = 0.95.
Proof. reflexivity. Qed.


(** Division by [1.0] is exact. *)
Lemma div_one x : x / 1 = x.
Proof.
  apply Prim2SF_inj. rewrite FloatAxioms.div_spec.
  change (Prim2SF 1) with (S754_finite false 4503599627370496 (-52)).
  apply SFdiv_one, Prim2SF_valid.
Qed.

Lemma running_avg_head x a : running_avg (x :: a) !! 0%nat = Some x.
Proof.
  rewrite running_avg_lookup by (simpl; lia).
  cbn [take ordered_sum]. rewrite take_0. cbn [foldl]. f_equal. apply div_one.
Qed.

Lemma is_finite_SF x : is_finite x = true → SF_finite (Prim2SF x).
Proof.
  unfold is_finite, is_nan, is_infinity.
  rewrite !FloatAxioms.eqb_spec, FloatAxioms.abs_spec.
  change (Prim2SF infinity) with (S754_infinity false).
  destruct (Prim2SF x) as [s|s| |s m e]; try destruct s; cbn; done.
Qed.

(** The deviation of a finite value from one that compares equal is a
    zero, and its square is [+0]. *)
Lemma deviation_zero c m :
  is_finite c = true → (m =? c) = true → ∃ s, Prim2SF (c - m) = S754_zero s.
Proof.
  intros Hc Hm. apply is_finite_SF in Hc.
  rewrite FloatAxioms.eqb_spec in Hm. unfold SFeqb in Hm.
  rewrite FloatAxioms.sub_spec. apply SFsub_Eq_zero.
  - destruct (SFcompare (Prim2SF m) (Prim2SF c)) as [[]|]; done.
  - exact Hc.
Qed.

Lemma squared_deviation_zero c m :
  is_finite c = true → (m =? c) = true → (c - m) * (c - m) = 0.
Proof.
  intros Hc Hm. destruct (deviation_zero c m Hc Hm) as [s Hs].
  apply Prim2SF_inj. rewrite FloatAxioms.mul_spec, Hs. by destruct s.
Qed.

(** However they are added, zeros sum to zero. *)
Lemma foldl_add_zeros n : foldl fadd 0 (replicate n 0) = 0.
Proof. induction n as [|n IH]; [done|]. cbn [replicate foldl]. exact IH. Qed.

Lemma unrolled_sum_zeros n : unrolled_sum 0 0 0 0 0 0 0 0 (replicate n 0) = 0.
Proof.
  induction n as [n IH] using lt_wf_ind.
  do 8 (destruct n as [|n]; [reflexivity|]).
  cbn [replicate unrolled_sum]. apply (IH n). lia.
Qed.

Lemma block_sum_zeros n : block_sum (replicate n 0) = 0.
Proof.
  do 8 (destruct n as [|n]; [reflexivity|]).
  cbn [replicate block_sum]. apply unrolled_sum_zeros.
Qed.

Lemma pairwise_sum_rec_zeros depth n :
  pairwise_sum_rec depth (replicate n 0) = 0.
Proof.
  revert n. induction depth as [|depth IH]; intros n; cbn [pairwise_sum_rec].
  - apply block_sum_zeros.
  - cbv zeta. destruct (Nat.ltb 128 (length (replicate n 0))).
    + by rewrite take_replicate, drop_replicate, !IH.
    + apply block_sum_zeros.
Qed.

Lemma np_sum_zeros n : np_sum (replicate n 0) = 0.
Proof. unfold np_sum, pairwise_sum. by rewrite pairwise_sum_rec_zeros. Qed.

(** A quotient that compares equal to a finite value has a divisor that is
    neither a NaN nor a zero. *)
Lemma quotient_finite_divisor x d c :
  is_finite c = true → (x / d =? c) = true →
  match Prim2SF d with
  | S754_finite _ _ _ | S754_infinity _ => True
  | _ => False
  end.
Proof.
  intros Hc Hq. apply is_finite_SF in Hc.
  rewrite FloatAxioms.eqb_spec, FloatAxioms.div_spec in Hq. unfold SFeqb, SF64div in Hq.
  destruct (Prim2SF d) as [sd|sd| |sd md ed]; try done;
    destruct (Prim2SF x) as [sx|sx| |sx mx ex];
    destruct (Prim2SF c) as [sc|sc| |sc mc ec];
    try destruct sx; try destruct sd; try destruct sc; cbn in Hq; done.
Qed.

Lemma zero_div_zero d :
  match Prim2SF d with
  | S754_finite _ _ _ | S754_infinity _ => True
  | _ => False
  end → ∃ s, Prim2SF (0 / d) = S754_zero s.
Proof.
  rewrite FloatAxioms.div_spec. change (Prim2SF 0) with (S754_zero false).
  destruct (Prim2SF d) as [sd|sd| |sd md ed]; try done; cbn; eauto.
Qed.

Lemma sqrt_zero_eqb x s :
  Prim2SF x = S754_zero s → (PrimFloat.sqrt x =? 0) = true.
Proof.
  intros Hx. rewrite FloatAxioms.eqb_spec, FloatAxioms.sqrt_spec, Hx.
  by destruct s.
Qed.

Lemma map_replicate {A B} (f : A → B) n (x : A) :
  map f (replicate n x) = replicate n (f x).
Proof. induction n as [|n IH]; cbn [replicate map]; [done|]. by rewrite IH. Qed.

(** Identical finite values whose computed mean compares equal to them
    have standard deviation zero. *)
Lemma np_std_identical_binary64 c n :
  n ≠ 0%nat → is_finite c = true →
  (np_mean (replicate n c) =? c) = true →
  (np_std (replicate n c) =? 0) = true.
Proof.
  intros Hn Hc Hm. unfold np_std. cbv zeta.
  rewrite map_replicate. binary64_ops.
  rewrite (squared_deviation_zero _ _ Hc Hm), np_sum_zeros.
  unfold np_mean in Hm. binary64_ops.
  destruct (zero_div_zero _ (quotient_finite_divisor _ _ _ Hc Hm)) as [s Hs].
  exact (sqrt_zero_eqb _ s Hs).
Qed.

End Binary64.

(** ** Exact arithmetic *)

Section Exact.
#[local] Existing Instance exact.
Local Open Scope R_scope.
Implicit Types l : list R.

Lemma foldl_fadd_exact acc l : foldl fadd acc l = acc + Rsum l.
Proof.
  revert acc; induction l as [|x l IH]; intros acc; cbn [foldl Rsum foldr].
  - lra.
  - rewrite IH. exact_arith. fold (Rsum l). lra.
Qed.

Lemma ordered_sum_exact l : ordered_sum l = Rsum l.
Proof.
  destruct l as [|x l]; cbn [ordered_sum Rsum foldr].
  - exact_arith. reflexivity.
  - rewrite foldl_fadd_exact. reflexivity.
Qed.

Lemma Rsum_app l1 l2 : Rsum (l1 ++ l2) = Rsum l1 + Rsum l2.
Proof.
  unfold Rsum. induction l1 as [|x l1 IH]; cbn [app foldr].
  - lra.
  - rewrite IH. lra.
Qed.

Lemma unrolled_sum_exact r0 r1 r2 r3 r4 r5 r6 r7 l :
  unrolled_sum r0 r1 r2 r3 r4 r5 r6 r7 l
  = r0 + r1 + r2 + r3 + r4 + r5 + r6 + r7 + Rsum l.
Proof.
  revert r0 r1 r2 r3 r4 r5 r6 r7.
  induction l as [l IH] using (induction_ltof1 _ (@length R)).
  unfold ltof in IH. intros r0 r1 r2 r3 r4 r5 r6 r7.
  destruct l as [|x0 [|x1 [|x2 [|x3 [|x4 [|x5 [|x6 [|x7 l]]]]]]]];
    cbn [unrolled_sum];
    try (rewrite foldl_fadd_exact; exact_arith; cbn [Rsum foldr]; lra).
  rewrite IH by (cbn [length]; lia).
  exact_arith. cbn [Rsum foldr]. fold (Rsum l). lra.
Qed.

Lemma block_sum_exact l : block_sum l = Rsum l.
Proof.
  destruct l as [|x0 [|x1 [|x2 [|x3 [|x4 [|x5 [|x6 [|x7 l]]]]]]]];
    cbn [block_sum];
    try (rewrite foldl_fadd_exact; exact_arith; cbn [Rsum foldr]; simpl INR; lra).
  rewrite unrolled_sum_exact. cbn [Rsum foldr]. fold (Rsum l). lra.
Qed.

Lemma pairwise_sum_rec_exact depth l : pairwise_sum_rec depth l = Rsum l.
Proof.
  revert l. induction depth as [|depth IH]; intros l; cbn [pairwise_sum_rec].
  - apply block_sum_exact.
  - cbv zeta. destruct (128 <? length l)%nat; [|apply block_sum_exact].
    rewrite !IH. exact_arith. rewrite <- Rsum_app. by rewrite take_drop.
Qed.

Lemma np_sum_exact l : np_sum l = Rsum l.
Proof.
  unfold np_sum, pairwise_sum. rewrite pairwise_sum_rec_exact.
  exact_arith. simpl INR. lra.
Qed.

Lemma np_mean_exact l : np_mean l = Rsum l / INR (length l).
Proof. unfold np_mean. rewrite np_sum_exact. reflexivity. Qed.

(** NumPy's [std] is the population standard deviation. *)
Lemma np_std_exact l : np_std l = population_std l.
Proof.
  unfold np_std, population_std. cbv zeta.
  rewrite np_sum_exact, np_mean_exact. reflexivity.
Qed.

Lemma Rsum_replicate n c : Rsum (replicate n c) = INR n * c.
Proof.
  induction n as [|n IH]; cbn [replicate Rsum foldr].
  - simpl. lra.
  - fold (Rsum (replicate n c)). rewrite IH, S_INR. lra.
Qed.

Lemma np_mean_identical_exact c n :
  n ≠ 0%nat → np_mean (replicate n c) = c.
Proof.
  intros Hn. rewrite np_mean_exact, Rsum_replicate, length_replicate.
  assert (INR n ≠ 0) by (by apply not_0_INR). field. done.
Qed.

Lemma np_std_identical_exact c n :
  n ≠ 0%nat → np_std (replicate n c) = 0.
Proof.
  intros Hn. rewrite np_std_exact. unfold population_std. cbv zeta.
  rewrite Rsum_replicate, length_replicate.
  assert (HN : INR n ≠ 0) by (by apply not_0_INR).
  replace (INR n * c / INR n) with c by (field; done).
  replace (map (fun x => (x - c) * (x - c)) (replicate n c))
    with (replicate n 0).
  - rewrite Rsum_replicate.
    replace (INR n * 0 / INR n) with 0 by (field; done). apply sqrt_0.
  - clear. induction n as [|n IH]; cbn [replicate map]; [done|].
    rewrite <- IH. f_equal. lra.
Qed.
End Exact.

(** ** Rounded arithmetic

    [rounded rnd] rounds the exact result of every operation.  Binary64
    rounds to the nearest value of 53 significant bits: away from overflow
    and underflow the relative error of one operation is at most
    [2^-53].  That bound is all this section assumes of [rnd]; the exact
    arithmetic ([rnd x = x]) satisfies it. *)

Section Close.
Local Open Scope R_scope.


Lemma growth_ge_1 : 1 <= growth.
Proof. unfold growth, unit_roundoff. lra. Qed.

Lemma growth_pow_ge_1 k : 1 <= growth ^ k.
Proof. apply pow_R1_Rle, growth_ge_1. Qed.





Lemma close_sqrt k x y : close k x y → close k (sqrt x) (sqrt y).
Proof.
  intros (Hx & Hy & H1 & H2).
  pose proof (growth_pow_ge_1 k) as Hg.
  assert (Hs : sqrt (growth ^ k) <= growth ^ k).
  { rewrite <- (sqrt_square (growth ^ k)) at 2 by lra.
    apply sqrt_le_1_alt. nra. }
  unfold close. repeat split; try (apply sqrt_lt_R0; done).
  - apply Rle_trans with (sqrt (x * growth ^ k)); [by apply sqrt_le_1_alt|].
    rewrite sqrt_mult by lra.
    apply Rmult_le_compat_l; [apply sqrt_pos|done].
  - apply Rle_trans with (sqrt (y * growth ^ k)); [by apply sqrt_le_1_alt|].
    rewrite sqrt_mult by lra.
    apply Rmult_le_compat_l; [apply sqrt_pos|done].
Qed.

End Close.

Section Rounded.
Local Open Scope R_scope.
Variable rnd : R → R.
Hypothesis rnd_error : ∀ x, Rabs (rnd x - x) <= unit_roundoff * Rabs x.



End Rounded.

Section ExactGFactor.
#[local] Existing Instance exact.
Local Open Scope R_scope.



End ExactGFactor.

Section RoundedGFactor.
Local Open Scope R_scope.
Variable rnd : R → R.
Hypothesis rnd_error : ∀ x, Rabs (rnd x - x) <= unit_roundoff * Rabs x.




End RoundedGFactor.

(** ** The scripts as programs *)

Section Programs.
Implicit Types w : world.

Lemma bind_returns {A B} (m : py A) (k : A → py B) w a w' :
  m w = (Returns a, w') → (m ≫= k) w = k a w'.
Proof. intros Hm. unfold mbind, py_bind, bind. by rewrite Hm. Qed.

Lemma bind_raises {A B} (m : py A) (k : A → py B) w e w' :
  m w = (Raises e, w') → (m ≫= k) w = (Raises e, w').
Proof. intros Hm. unfold mbind, py_bind, bind. by rewrite Hm. Qed.

Lemma np_loadtxt_missing filename w :
  files w !! filename = None →
  np_loadtxt filename w = (Raises (FileNotFoundError filename), w).
Proof. intros Hf. unfold np_loadtxt. by rewrite Hf. Qed.




(** When the body raises, the result is the handler's. *)
Lemma try_except_raises {A} (body h1 : py A) (h2 : exn → py A) w e w1 :
  body w = (Raises e, w1) →
  try_except body h1 h2 w
  = if is_FileNotFoundError e then h1 w1 else h2 e w1.
Proof. intros Hb. unfold try_except. by rewrite Hb. Qed.
End Programs.

Section GFactorProgram.
Variable matplotlib : list artist → option exn.
Implicit Types w : world.

Lemma gfactor_banner w :
  GFactor.banner w
  = (Returns tt, World (files w) (stdout w ++ gfactor_banner_lines)).
Proof.
  unfold GFactor.banner, mbind, py_bind, bind, print. cbn [files stdout].
  by rewrite <- !app_assoc.
Qed.

Lemma gfactor_analyze w filename :
  GFactor.analyze_gyration_data matplotlib filename w
  = try_except (GFactor.body matplotlib filename)
      (GFactor.not_found filename) GFactor.other_error
      (World (files w) (stdout w ++ gfactor_banner_lines)).
Proof.
  unfold GFactor.analyze_gyration_data.
  by rewrite (bind_returns _ _ _ _ _ (gfactor_banner w)).
Qed.

Lemma gfactor_not_found filename w :
  GFactor.not_found filename w
  = (Returns (None, None, None),
     World (files w)
       (stdout w ++ [("ERROR: {} not found!", [Str filename]);
                     ("Make sure LAMMPS simulation completed successfully.", [])])).
Proof.
  unfold GFactor.not_found, mbind, mret, py_bind, py_ret, bind, ret, print.
  cbn [files stdout]. by rewrite <- !app_assoc.
Qed.

Lemma gfactor_other_error e w :
  GFactor.other_error e w
  = (Returns (None, None, None),
     World (files w) (stdout w ++ [("ERROR: {}", [Err e])])).
Proof. reflexivity. Qed.

Lemma gfactor_body_missing filename w :
  files w !! filename = None →
  GFactor.body matplotlib filename w = (Raises (FileNotFoundError filename), w).
Proof.
  intros Hf. unfold GFactor.body.
  by rewrite (bind_raises _ _ _ _ _ (np_loadtxt_missing _ _ Hf)).
Qed.

End GFactorProgram.

Section StatsProgram.
Variable matplotlib : list artist → option exn.
Variable stdtrit : Z → float → float.
Implicit Types w : world.

Lemma stats_banner w :
  Stats.banner w
  = (Returns tt, World (files w) (stdout w ++ stats_banner_lines)).
Proof.
  unfold Stats.banner, mbind, py_bind, bind, print. cbn [files stdout].
  by rewrite <- !app_assoc.
Qed.

Lemma stats_analyze w filename :
  Stats.analyze_gyration_data matplotlib stdtrit filename w
  = try_except (Stats.body matplotlib stdtrit filename)
      (Stats.not_found filename) Stats.other_error
      (World (files w) (stdout w ++ stats_banner_lines)).
Proof.
  unfold Stats.analyze_gyration_data.
  by rewrite (bind_returns _ _ _ _ _ (stats_banner w)).
Qed.

Lemma stats_not_found filename w :
  Stats.not_found filename w
  = (Returns None,
     World (files w)
       (stdout w ++ [("Error: {} not found!", [Str filename]);
                     ("Make sure LAMMPS simulation completed successfully.", [])])).
Proof.
  unfold Stats.not_found, mbind, mret, py_bind, py_ret, bind, ret, print.
  cbn [files stdout]. by rewrite <- !app_assoc.
Qed.

Lemma stats_other_error e w :
  Stats.other_error e w
  = (Returns None,
     World (files w) (stdout w ++ [("Error analyzing data: {}", [Err e])])).
Proof. reflexivity. Qed.

Lemma stats_body_missing filename w :
  files w !! filename = None →
  Stats.body matplotlib stdtrit filename w
  = (Raises (FileNotFoundError filename), w).
Proof.
  intros Hf. unfold Stats.body.
  by rewrite (bind_raises _ _ _ _ _ (np_loadtxt_missing _ _ Hf)).
Qed.


(** The two quantile levels of the 95% interval, neither 0 nor 1. *)
Lemma conf_int_unfold rg_values :
  Stats.conf_int stdtrit rg_values
  = Returns
      (Stats.t_ppf stdtrit ((1 - 0.95) / 2)%float
         (Z.of_nat (length rg_values) - 1)
         (@np_mean _ binary64 rg_values)
         (@standard_error _ binary64 (@np_std _ binary64 rg_values)
            (length rg_values)),
       Stats.t_ppf stdtrit ((1 + 0.95) / 2)%float
         (Z.of_nat (length rg_values) - 1)
         (@np_mean _ binary64 rg_values)
         (@standard_error _ binary64 (@np_std _ binary64 rg_values)
            (length rg_values))).
Proof. reflexivity. Qed.


Lemma t_ppf_bad_scale q df loc scale :
  (0 <? scale)%float = false → Stats.t_ppf stdtrit q df loc scale = nan.
Proof.
  intros Hs. unfold Stats.t_ppf. cbv zeta.
  by rewrite Hs, andb_false_r.
Qed.

End StatsProgram.

(** ** NaN samples

    A NaN absorbs every operation, so one NaN among the samples reaches
    every sum taken over them, in whatever order the sum is taken. *)

Section NaN.
#[local] Existing Instance binary64.
Local Open Scope float_scope.

Lemma is_nan_eq x : is_nan x = true → x = nan.
Proof.
  unfold is_nan. rewrite FloatAxioms.eqb_spec. unfold SFeqb. intros H.
  apply Prim2SF_inj. change (Prim2SF nan) with S754_nan.
  destruct (Prim2SF x) as [s|s| |s m e]; try destruct s; cbn [SFcompare] in H; try done.
  - rewrite Z.compare_refl, Pos.compare_cont_refl in H. done.
  - rewrite Z.compare_refl, Pos.compare_cont_refl in H. done.
Qed.

Lemma add_nan_l x : nan + x = nan.
Proof. apply Prim2SF_inj. rewrite FloatAxioms.add_spec. reflexivity. Qed.

Lemma add_nan_r x : x + nan = nan.
Proof.
  apply Prim2SF_inj. rewrite FloatAxioms.add_spec.
  change (Prim2SF nan) with S754_nan. by destruct (Prim2SF x) as [[]|[]| |].
Qed.

Lemma sub_nan_l x : nan - x = nan.
Proof. apply Prim2SF_inj. rewrite FloatAxioms.sub_spec. reflexivity. Qed.

Lemma mul_nan_l x : nan * x = nan.
Proof. apply Prim2SF_inj. rewrite FloatAxioms.mul_spec. reflexivity. Qed.

Lemma div_nan_l x : nan / x = nan.
Proof. apply Prim2SF_inj. rewrite FloatAxioms.div_spec. reflexivity. Qed.

Lemma foldl_add_nan acc a :
  acc = nan ∨ nan ∈ a → foldl fadd acc a = nan.
Proof.
  revert acc. induction a as [|x a IH]; intros acc Hn; cbn [foldl].
  - destruct Hn as [->|Hn]; [done|]. by apply elem_of_nil in Hn.
  - apply IH. binary64_ops. rewrite elem_of_cons in Hn.
    destruct Hn as [->|[<-|Hn]]; [left; apply add_nan_l|left; apply add_nan_r|by right].
Qed.

Lemma unrolled_sum_nan r0 r1 r2 r3 r4 r5 r6 r7 a :
  nan ∈ [r0; r1; r2; r3; r4; r5; r6; r7] ++ a →
  unrolled_sum r0 r1 r2 r3 r4 r5 r6 r7 a = nan.
Proof.
  revert r0 r1 r2 r3 r4 r5 r6 r7.
  induction a as [a IH] using (induction_ltof1 _ (@length float)).
  unfold ltof in IH. intros r0 r1 r2 r3 r4 r5 r6 r7 Hn.
  cbn [app] in Hn.
  destruct a as [|x0 [|x1 [|x2 [|x3 [|x4 [|x5 [|x6 [|x7 a]]]]]]]];
    cbn [unrolled_sum]; binary64_ops.
  9: { apply IH; [cbn [length]; lia|]. cbn [app].
       rewrite !elem_of_cons in Hn. rewrite !elem_of_cons.
       destruct Hn as [<-|[<-|[<-|[<-|[<-|[<-|[<-|[<-|[<-|[<-|[<-|[<-|[<-|[<-|[<-|[<-|Hn]]]]]]]]]]]]]]]];
       repeat (rewrite add_nan_l || rewrite add_nan_r); auto 20. }
  all: apply foldl_add_nan; rewrite !elem_of_cons in Hn; rewrite ?elem_of_cons;
    destruct Hn as [<-|[<-|[<-|[<-|[<-|[<-|[<-|[<-|Hn]]]]]]]];
    repeat (rewrite add_nan_l || rewrite add_nan_r); auto 20.
Qed.

Lemma block_sum_nan a : nan ∈ a → block_sum a = nan.
Proof.
  intros Hn.
  destruct a as [|x0 [|x1 [|x2 [|x3 [|x4 [|x5 [|x6 [|x7 a]]]]]]]];
    cbn [block_sum]; try (apply foldl_add_nan; by right).
  by apply unrolled_sum_nan.
Qed.

Lemma pairwise_sum_rec_nan depth a :
  nan ∈ a → pairwise_sum_rec depth a = nan.
Proof.
  revert a. induction depth as [|depth IH]; intros a Hn; cbn [pairwise_sum_rec].
  - by apply block_sum_nan.
  - cbv zeta. destruct (Nat.ltb 128 (length a)); [|by apply block_sum_nan].
    binary64_ops.
    rewrite <- (take_drop (length a `div` 2 - (length a `div` 2) `mod` 8) a) in Hn.
    apply elem_of_app in Hn as [Hn|Hn].
    + by rewrite (IH _ Hn), add_nan_l.
    + by rewrite (IH (drop _ _) Hn), add_nan_r.
Qed.

Lemma np_sum_nan a : nan ∈ a → np_sum a = nan.
Proof.
  intros Hn. unfold np_sum, pairwise_sum. rewrite pairwise_sum_rec_nan by done.
  reflexivity.
Qed.

Lemma np_mean_nan a : nan ∈ a → np_mean a = nan.
Proof. intros Hn. unfold np_mean. rewrite np_sum_nan by done. apply div_nan_l. Qed.

Lemma np_std_nan a : nan ∈ a → np_std a = nan.
Proof.
  intros Hn. unfold np_std. cbv zeta. rewrite (np_mean_nan a Hn).
  rewrite np_sum_nan.
  { binary64_ops. rewrite div_nan_l. apply Prim2SF_inj.
    by rewrite FloatAxioms.sqrt_spec. }
  apply (list_elem_of_fmap_2' _ _ nan); [done|].
  binary64_ops. by rewrite sub_nan_l, mul_nan_l.
Qed.
End NaN.

(** ** The order of binary64

    [<=] is a total preorder on the values that are not NaN. *)

Section Order.
Local Open Scope Z_scope.

Lemma SFcompare_refl x : x ≠ S754_nan → SFcompare x x = Some Eq.
Proof.
  destruct x as [[]|[]| |[] m e]; cbn [SFcompare]; try done; intros _;
    by rewrite Z.compare_refl, Pos.compare_cont_refl.
Qed.

Lemma SFleb_trans x y z :
  SFleb x y = true → SFleb y z = true → SFleb x z = true.
Proof.
  unfold SFleb.
  destruct x as [sx|sx| |sx mx ex], y as [sy|sy| |sy my ey],
    z as [sz|sz| |sz mz ez];
    try destruct sx; try destruct sy; try destruct sz;
    cbn [SFcompare]; try done;
    change PosDef.Pos.compare_cont with Pos.compare_cont;
    rewrite ?Pos.compare_cont_spec; cbn [Pos.switch_Eq];
    try (destruct (Z.compare_spec ex ey));
    try (destruct (Z.compare_spec ey ez));
    try (destruct (Z.compare_spec ex ez));
    try done; try lia; subst;
    try (destruct (Pos.compare_spec mx my));
    try (destruct (Pos.compare_spec my mz));
    try (destruct (Pos.compare_spec mx mz));
    cbn [CompOpp]; try done; try lia.
Qed.

Lemma SFcompare_some x y :
  x ≠ S754_nan → y ≠ S754_nan → ∃ c, SFcompare x y = Some c.
Proof.
  intros Hx Hy.
  destruct x as [sx|sx| |sx mx ex], y as [sy|sy| |sy my ey];
    cbn [SFcompare]; try done; eauto.
Qed.

Lemma SFleb_total x y :
  x ≠ S754_nan → y ≠ S754_nan → SFleb x y = true ∨ SFleb y x = true.
Proof.
  intros Hx Hy. unfold SFleb. rewrite (SFcompare_antisym x y).
  destruct (SFcompare_some x y Hx Hy) as [c ->]. destruct c; cbn; auto.
Qed.
End Order.

(** ** [np.min] and [np.max] (lines 32-33 of [compute_gyration.py]) *)

Section MinMax.
Local Open Scope float_scope.

Lemma is_nan_SF x : is_nan x = false ↔ Prim2SF x ≠ S754_nan.
Proof.
  split.
  - intros Hx Hn. change S754_nan with (Prim2SF nan) in Hn.
    apply Prim2SF_inj in Hn. by subst.
  - intros Hx. unfold is_nan. rewrite FloatAxioms.eqb_spec. unfold SFeqb.
    by rewrite SFcompare_refl.
Qed.

Lemma leb_refl x : is_nan x = false → (x <=? x) = true.
Proof.
  intros Hx%is_nan_SF. rewrite FloatAxioms.leb_spec. unfold SFleb.
  by rewrite SFcompare_refl.
Qed.

Lemma leb_total x y :
  is_nan x = false → is_nan y = false → (x <=? y) = true ∨ (y <=? x) = true.
Proof.
  intros Hx%is_nan_SF Hy%is_nan_SF. rewrite !FloatAxioms.leb_spec.
  by apply SFleb_total.
Qed.

Lemma leb_trans x y z :
  (x <=? y) = true → (y <=? z) = true → (x <=? z) = true.
Proof. rewrite !FloatAxioms.leb_spec. apply SFleb_trans. Qed.

Lemma foldl_minimum_bound acc a :
  is_nan acc = false → Forall (λ x, is_nan x = false) a →
  (foldl Stats.np_minimum acc a <=? acc) = true
  ∧ Forall (λ x, (foldl Stats.np_minimum acc a <=? x) = true) a.
Proof.
  intros Hacc Ha. revert acc Hacc.
  induction Ha as [|x a Hx Ha IH]; intros acc Hacc; cbn [foldl].
  - split; [by apply leb_refl|constructor].
  - unfold Stats.np_minimum at 2 4. rewrite Hacc, orb_false_r.
    destruct (acc <=? x) eqn:Hle.
    + destruct (IH acc Hacc) as [H1 H2]. split; [done|].
      constructor; [|done]. by apply (leb_trans _ acc).
    + destruct (IH x Hx) as [H1 H2].
      destruct (leb_total acc x Hacc Hx) as [Hc|Hc]; [congruence|].
      split; [by apply (leb_trans _ x)|]. by constructor.
Qed.

Lemma foldl_maximum_bound acc a :
  is_nan acc = false → Forall (λ x, is_nan x = false) a →
  (acc <=? foldl Stats.np_maximum acc a) = true
  ∧ Forall (λ x, (x <=? foldl Stats.np_maximum acc a) = true) a.
Proof.
  intros Hacc Ha. revert acc Hacc.
  induction Ha as [|x a Hx Ha IH]; intros acc Hacc; cbn [foldl].
  - split; [by apply leb_refl|constructor].
  - unfold Stats.np_maximum at 2 4. rewrite Hacc, orb_false_r.
    destruct (x <=? acc) eqn:Hle.
    + destruct (IH acc Hacc) as [H1 H2]. split; [done|].
      constructor; [|done]. by apply (leb_trans _ acc).
    + destruct (IH x Hx) as [H1 H2].
      destruct (leb_total acc x Hacc Hx) as [Hc|Hc]; [|congruence].
      split; [by apply (leb_trans _ x)|]. by constructor.
Qed.

Lemma foldl_minimum_elem acc a : foldl Stats.np_minimum acc a ∈ acc :: a.
Proof.
  revert acc. induction a as [|x a IH]; intros acc; cbn [foldl]; [by left|].
  pose proof (IH (Stats.np_minimum acc x)) as Hm.
  apply elem_of_cons in Hm as [Hm|Hm].
  - rewrite Hm. unfold Stats.np_minimum.
    destruct ((acc <=? x) || is_nan acc); [by left|right; by left].
  - right. by right.
Qed.

Lemma foldl_maximum_elem acc a : foldl Stats.np_maximum acc a ∈ acc :: a.
Proof.
  revert acc. induction a as [|x a IH]; intros acc; cbn [foldl]; [by left|].
  pose proof (IH (Stats.np_maximum acc x)) as Hm.
  apply elem_of_cons in Hm as [Hm|Hm].
  - rewrite Hm. unfold Stats.np_maximum.
    destruct ((x <=? acc) || is_nan acc); [by left|right; by left].
  - right. by right.
Qed.

Lemma np_minimum_nan_l x : Stats.np_minimum nan x = nan.
Proof.
  unfold Stats.np_minimum. change (is_nan nan) with true. by rewrite orb_true_r.
Qed.

Lemma np_minimum_nan_r x : Stats.np_minimum x nan = nan.
Proof.
  unfold Stats.np_minimum. destruct (is_nan x) eqn:Hx.
  - apply is_nan_eq in Hx. subst. reflexivity.
  - rewrite orb_false_r. rewrite FloatAxioms.leb_spec.
    change (Prim2SF nan) with S754_nan. by destruct (Prim2SF x) as [[]|[]| |[] ? ?].
Qed.

Lemma np_maximum_nan_l x : Stats.np_maximum nan x = nan.
Proof.
  unfold Stats.np_maximum. change (is_nan nan) with true. by rewrite orb_true_r.
Qed.

Lemma np_maximum_nan_r x : Stats.np_maximum x nan = nan.
Proof.
  unfold Stats.np_maximum. destruct (is_nan x) eqn:Hx.
  - apply is_nan_eq in Hx. subst. reflexivity.
  - rewrite orb_false_r. rewrite FloatAxioms.leb_spec.
    change (Prim2SF nan) with S754_nan. by destruct (Prim2SF x) as [[]|[]| |[] ? ?].
Qed.

Lemma foldl_minimum_nan acc a :
  nan ∈ acc :: a → foldl Stats.np_minimum acc a = nan.
Proof.
  revert acc. induction a as [|x a IH]; intros acc Hn; cbn [foldl].
  - rewrite elem_of_cons in Hn. destruct Hn as [->|Hn]; [done|by apply elem_of_nil in Hn].
  - apply IH. rewrite !elem_of_cons in *.
    destruct Hn as [<-|[<-|Hn]]; [left|left|by right].
    + by rewrite np_minimum_nan_l.
    + by rewrite np_minimum_nan_r.
Qed.

Lemma foldl_maximum_nan acc a :
  nan ∈ acc :: a → foldl Stats.np_maximum acc a = nan.
Proof.
  revert acc. induction a as [|x a IH]; intros acc Hn; cbn [foldl].
  - rewrite elem_of_cons in Hn. destruct Hn as [->|Hn]; [done|by apply elem_of_nil in Hn].
  - apply IH. rewrite !elem_of_cons in *.
    destruct Hn as [<-|[<-|Hn]]; [left|left|by right].
    + by rewrite np_maximum_nan_l.
    + by rewrite np_maximum_nan_r.
Qed.
End MinMax.

(** ** Signs, zeros and the thresholds of the verdict *)

Section Signs.
#[local] Existing Instance binary64.
Local Open Scope float_scope.

Lemma below_0_05_below_0_1 d : (d <? 0.05) = true → (d <? 0.1) = true.
Proof.
  rewrite !FloatAxioms.ltb_spec. unfold SFltb.
  change (Prim2SF 0.1) with (S754_finite false 7205759403792794 (-56)).
  change (Prim2SF 0.05) with (S754_finite false 7205759403792794 (-57)).
  destruct (Prim2SF d) as [s|s| |s m e]; try destruct s; cbn [SFcompare]; try congruence.
  destruct (Z.compare_spec e (-57)); destruct (Z.compare_spec e (-56));
    try lia; try congruence.
Qed.

Lemma abs_not_negative x : (abs x <? 0) = false.
Proof.
  rewrite FloatAxioms.ltb_spec, FloatAxioms.abs_spec. unfold SFltb.
  change (Prim2SF 0) with (S754_zero false).
  by destruct (Prim2SF x) as [s|s| |s m e].
Qed.

Lemma binary_round_aux_not_negative mz ez lz :
  SFltb (binary_round_aux prec emax false mz ez lz) (S754_zero false) = false.
Proof.
  unfold binary_round_aux.
  destruct (shr_fexp prec emax mz ez lz) as [mrs' e'].
  destruct (shr_fexp prec emax _ e' loc_Exact) as [mrs'' e''].
  destruct (shr_m mrs''); [done| |done].
  by destruct (_ <=? _)%Z.
Qed.

Lemma sqrt_not_negative x : (PrimFloat.sqrt x <? 0) = false.
Proof.
  rewrite FloatAxioms.ltb_spec, FloatAxioms.sqrt_spec.
  change (Prim2SF 0) with (S754_zero false).
  destruct (Prim2SF x) as [s|s| |s m e]; try destruct s; try done.
  unfold SF64sqrt, SFsqrt.
  destruct (SFsqrt_core_binary prec emax (Z.pos m) e) as [[mz ez] lz].
  apply binary_round_aux_not_negative.
Qed.

Lemma not_negative_cases x :
  (x <? 0) = false → is_nan x = true ∨ (0 <=? x) = true.
Proof.
  intros Hlt. destruct (is_nan x) eqn:Hn; [by left|right].
  apply is_nan_SF in Hn. revert Hlt.
  rewrite FloatAxioms.ltb_spec, FloatAxioms.leb_spec. unfold SFltb, SFleb.
  rewrite (SFcompare_antisym (Prim2SF x) (Prim2SF 0)).
  destruct (SFcompare_some (Prim2SF x) (Prim2SF 0) Hn) as [c ->]; [done|].
  by destruct c.
Qed.

Lemma eqb_zero_SF x : (x =? 0) = true → ∃ s, Prim2SF x = S754_zero s.
Proof.
  rewrite FloatAxioms.eqb_spec. unfold SFeqb.
  change (Prim2SF 0) with (S754_zero false). intros H.
  apply (SFcompare_Eq_finite (Prim2SF x) (S754_zero false)).
  by destruct (SFcompare (Prim2SF x) (S754_zero false)) as [[]|].
Qed.

Lemma zero_quotient_not_positive x y :
  (x =? 0) = true → (0 <? x / y) = false.
Proof.
  intros [s Hs]%eqb_zero_SF.
  rewrite FloatAxioms.ltb_spec, FloatAxioms.div_spec, Hs. unfold SFltb.
  change (Prim2SF 0) with (S754_zero false).
  by destruct (Prim2SF y) as [sy|sy| |sy my ey].
Qed.

Lemma add_zero_l_exact x : is_finite x = true → x ≠ (-0) → 0 + x = x.
Proof.
  intros Hx%is_finite_SF Hz. apply Prim2SF_inj.
  rewrite FloatAxioms.add_spec. change (Prim2SF 0) with (S754_zero false).
  destruct (Prim2SF x) as [s|s| |s m e] eqn:E; try done.
  destruct s; [|done]. exfalso. apply Hz. by apply Prim2SF_inj.
Qed.

Lemma SF_zero_cases x s : Prim2SF x = S754_zero s → x = 0 ∨ x = (-0).
Proof.
  intros H. destruct s; [right|left]; by apply Prim2SF_inj.
Qed.

Lemma SF_infinity_cases x s :
  Prim2SF x = S754_infinity s → x = infinity ∨ x = neg_infinity.
Proof.
  intros H. destruct s; [right|left]; by apply Prim2SF_inj.
Qed.

Lemma SF_nan_case x : Prim2SF x = S754_nan → x = nan.
Proof. intros H. by apply Prim2SF_inj. Qed.

Lemma t_ppf_nan_loc stdtrit q df scale : Stats.t_ppf stdtrit q df nan scale = nan.
Proof.
  unfold Stats.t_ppf. cbv zeta. change (nan =? nan) with false.
  by rewrite andb_false_r.
Qed.

Lemma py_int_finite t : is_finite t = true → ∃ z, py_int t = Returns z.
Proof.
  intros Ht%is_finite_SF. unfold py_int.
  destruct (Prim2SF t); try done; eauto.
Qed.

Lemma py_int_not_finite t :
  is_finite t = false →
  py_int t = Raises (if is_nan t then ValueError else OverflowError).
Proof.
  unfold is_finite, is_nan, is_infinity, py_int.
  rewrite !FloatAxioms.eqb_spec, FloatAxioms.abs_spec.
  change (Prim2SF infinity) with (S754_infinity false). unfold SFeqb.
  destruct (Prim2SF t) as [s|s| |s m e] eqn:E; try destruct s; cbn [SFabs SFcompare];
    try done.
  all: rewrite ?Z.compare_refl, ?Pos.compare_cont_refl; try done.
Qed.
End Signs.

(** ** Tables and their columns (lines 22-25 of both scripts) *)

Section Tables.
Implicit Types rows : list (list float).

Lemma rectangular_widths r rows :
  rectangular (r :: rows) = true → Forall (λ r', length r' = length r) (r :: rows).
Proof.
  cbn [rectangular]. intros Hr. constructor; [done|].
  induction rows as [|r' rows IH]; [constructor|].
  cbn [forallb] in Hr. apply andb_prop in Hr as [H1 H2].
  constructor; [by apply Nat.eqb_eq|by apply IH].
Qed.

Lemma mapM_column rows j :
  Forall (λ r, j < length r) rows →
  mapM (λ r : list float, r !! j) rows = Some (nth_column j rows)
  ∧ length (nth_column j rows) = length rows.
Proof.
  induction 1 as [|r rows Hr Hrows [IH1 IH2]]; [done|].
  destruct (lookup_lt_is_Some_2 r j Hr) as [x Hx].
  unfold nth_column in *. simpl. rewrite Hx. simpl. rewrite IH1.
  split; [done|]. f_equal. exact IH2.
Qed.

Lemma two_columns_widths rows :
  two_columns rows = true →
  rectangular rows = true ∧ 2 ≤ length rows ∧ Forall (λ r, 2 ≤ length r) rows.
Proof.
  unfold two_columns. intros H.
  apply andb_prop in H as [H H3]. apply andb_prop in H as [H1 H2].
  apply Nat.leb_le in H2. split; [done|]. split; [done|].
  destruct rows as [|r rows]; [done|]. apply Nat.leb_le in H3.
  eapply Forall_impl; [apply rectangular_widths, H1|]. cbn. lia.
Qed.

Lemma two_columns_squeeze rows :
  two_columns rows = true → squeeze rows = Array2 rows.
Proof.
  intros (_ & Hn & Hw)%two_columns_widths.
  destruct rows as [|r [|r' rows]]; cbn [length] in Hn; [lia|lia|].
  apply Forall_cons in Hw as [Hr _].
  destruct r as [|x [|y r]]; cbn [length] in Hr; [lia|lia|done].
Qed.

Lemma two_columns_column rows j :
  two_columns rows = true → j < 2 →
  column (squeeze rows) j = Returns (nth_column j rows)
  ∧ length (nth_column j rows) = length rows.
Proof.
  intros Ht Hj. rewrite (two_columns_squeeze _ Ht).
  destruct (two_columns_widths _ Ht) as (_ & _ & Hw).
  destruct (mapM_column rows j) as [H1 H2].
  { eapply Forall_impl; [exact Hw|]. cbn. lia. }
  cbn [column]. by rewrite H1.
Qed.

(** Conversely, an array whose second column can be selected came from
    such a table. *)
Lemma column_two_columns rows rg_values :
  rectangular rows = true → column (squeeze rows) 1 = Returns rg_values →
  two_columns rows = true.
Proof.
  intros Hr Hc. unfold two_columns. rewrite Hr. cbn [andb].
  destruct rows as [|r [|r' rows]].
  - done.
  - by destruct r as [|x [|y r]].
  - by destruct r as [|x [|y r]].
Qed.

Lemma column_raises data j e : column data j = Raises e → e = IndexError.
Proof.
  destruct data as [x|a|rows]; cbn [column]; try congruence.
  destruct (mapM _ rows); congruence.
Qed.

Lemma item_last_nonempty (a : list float) :
  a ≠ [] → ∃ x, last a = Some x ∧ item_last a = Returns x.
Proof.
  intros Ha. destruct (last a) as [x|] eqn:Hl.
  - exists x. unfold item_last. by rewrite Hl.
  - by apply last_None in Hl.
Qed.

Lemma np_min_max_nonempty (a : list float) :
  a ≠ [] →
  ∃ lo hi, Stats.np_min a = Returns lo ∧ Stats.np_max a = Returns hi.
Proof. destruct a as [|x a]; [done|]. intros _. by eexists _, _. Qed.
End Tables.

(** ** The body of the [try], step by step

    On a table of two columns the body of each script runs up to the
    plotting calls; what happens there is matplotlib's.  On anything else
    it raises before it has printed or written anything. *)

Section GFactorRun.
#[local] Existing Instance binary64.
Variable matplotlib : list artist → option exn.
Implicit Types w : world.

Lemma gfactor_body_table filename w rows :
  files w !! filename = Some (Table rows) → two_columns rows = true →
  let timesteps := nth_column 0 rows in
  let rg_values := nth_column 1 rows in
  let avg_rg := np_mean (equilibrated_rg rg_values) in
  let std_rg := np_std (equilibrated_rg rg_values) in
  let actual := actual_g avg_rg expected_g in
  ∃ t_last, last timesteps = Some t_last ∧
    match py_int t_last with
    | Raises e => GFactor.body matplotlib filename w = (Raises e, w)
    | Returns steps =>
        ∃ artists out report,
          GFactor.body matplotlib filename w
          = match matplotlib artists with
            | Some e => (Raises e, World (files w) (stdout w ++ out))
            | None =>
                (Returns (Some actual, Some avg_rg, Some std_rg),
                 World (<["g_factor_results.txt" := Report report]>
                          (<["rg_analysis_results.png" := Figure artists]> (files w)))
                   (stdout w ++ out
                    ++ [("Plot saved as: rg_analysis_results.png", []);
                        ("Results saved as: g_factor_results.txt", [])]))
            end
          ∧ ("Calculated g-factor:      {:.3f}", [Float actual]) ∈ out
          ∧ GFactor.verdict_line (classification actual expected_g) ∈ out
          ∧ ("Calculated g-factor:      {:.6f}", [Float actual]) ∈ report
          ∧ ("Data points analyzed:     {}",
             [Int (Z.of_nat (length rows - length rows `div` 2))]) ∈ report
    end.
Proof.
  intros Hf Ht timesteps rg_values avg_rg std_rg actual.
  destruct (two_columns_widths _ Ht) as (Hr & Hn & _).
  destruct (two_columns_column rows 0 Ht ltac:(lia)) as [Hc0 Hl0].
  destruct (two_columns_column rows 1 Ht ltac:(lia)) as [Hc1 Hl1].
  fold timesteps in Hc0, Hl0. fold rg_values in Hc1, Hl1.
  destruct (item_last_nonempty timesteps) as (t_last & Hlast & Hitem).
  { intros E. rewrite E in Hl0. cbn in Hl0. lia. }
  exists t_last. split; [done|].
  assert (Hstart : ∃ t_start, item timesteps (equilibrated_start rg_values) = Returns t_start).
  { destruct (lookup_lt_is_Some_2 timesteps (equilibrated_start rg_values)) as [t Ht'].
    - rewrite Hl0, <- Hl1. apply equilibrated_start_lt.
      intros E. rewrite E in Hl1. cbn in Hl1. lia.
    - exists t. unfold item. by rewrite Ht'. }
  destruct Hstart as [t_start Hstart].
  assert (Hlen : length (equilibrated_rg rg_values) = length rows - length rows `div` 2).
  { by rewrite equilibrated_rg_length, Hl1. }
  unfold GFactor.body, mbind, py_bind, bind, lift, np_loadtxt.
  rewrite Hf, Hr, Hc0, Hc1. fold timesteps rg_values. rewrite Hitem.
  destruct (py_int t_last) as [steps|e]; [|done].
  fold avg_rg std_rg. fold actual. rewrite Hstart, Hlen.
  unfold GFactor.savefig, raise, write_file, print, mret, py_ret, ret.
  destruct (GFactor.verdict_line (classification actual expected_g)) as [template values] eqn:Hv.
  cbn [files stdout].
  lazymatch goal with |- context [matplotlib ?A] => exists A end.
  rewrite <- !app_assoc. cbn [app].
  eexists _, _. split; [|split; [|split; [|split]]].
  - destruct (matplotlib _); cbn [files stdout].
    + reflexivity.
    + rewrite <- !app_assoc. cbn [app]. reflexivity.
  - rewrite !elem_of_cons. auto 20.
  - rewrite !elem_of_cons. auto 20.
  - rewrite !elem_of_cons. auto 20.
  - rewrite !elem_of_cons. auto 20.
Qed.

Lemma gfactor_body_unreadable filename w :
  match files w !! filename with
  | None =>
      GFactor.body matplotlib filename w = (Raises (FileNotFoundError filename), w)
  | Some (Table rows) =>
      if rectangular rows then
        two_columns rows = false →
        GFactor.body matplotlib filename w = (Raises IndexError, w)
      else GFactor.body matplotlib filename w = (Raises ValueError, w)
  | Some _ => GFactor.body matplotlib filename w = (Raises ValueError, w)
  end.
Proof.
  unfold GFactor.body, mbind, py_bind, bind, lift, np_loadtxt.
  destruct (files w !! filename) as [[rows|?|?|?]|]; try done.
  destruct (rectangular rows) eqn:Hr; [|done]. intros Ht.
  destruct (column (squeeze rows) 0) as [timesteps|e] eqn:Hc0.
  - destruct (column (squeeze rows) 1) as [rg_values|e] eqn:Hc1.
    + rewrite (column_two_columns _ _ Hr Hc1) in Ht. done.
    + by rewrite (column_raises _ _ _ Hc1).
  - by rewrite (column_raises _ _ _ Hc0).
Qed.
End GFactorRun.

Section StatsRun.
#[local] Existing Instance binary64.
Variable matplotlib : list artist → option exn.
Variable stdtrit : Z → float → float.
Implicit Types w : world.

Lemma stats_body_table filename w rows :
  files w !! filename = Some (Table rows) → two_columns rows = true →
  let rg_values := nth_column 1 rows in
  let mean_rg := np_mean rg_values in
  let std_rg := np_std rg_values in
  ∃ min_rg max_rg ci artists out report,
    Stats.np_min rg_values = Returns min_rg
    ∧ Stats.np_max rg_values = Returns max_rg
    ∧ Stats.conf_int stdtrit rg_values = Returns ci
    ∧ Stats.body matplotlib stdtrit filename w
      = match matplotlib artists with
        | Some e => (Raises e, World (files w) (stdout w ++ out))
        | None =>
            (Returns (Some (Stats.Summary mean_rg std_rg ci (length rows))),
             World (<["simulation_results.txt" := Report report]>
                      (<["rg_analysis_results.png" := Figure artists]> (files w)))
               (stdout w ++ out
                ++ [("Results saved to: simulation_results.txt", []);
                    ("Plots saved to: rg_analysis_results.png", [])]))
        end
    ∧ ("Samples:      {}", [Int (Z.of_nat (length rows))]) ∈ out
    ∧ ("Min R_g:      {:.4f}", [Float min_rg]) ∈ out
    ∧ ("Max R_g:      {:.4f}", [Float max_rg]) ∈ out
    ∧ ("Number of samples: {}", [Int (Z.of_nat (length rows))]) ∈ report
    ∧ ("95% confidence interval: [{:.6f}, {:.6f}]", [Float ci.1; Float ci.2])
      ∈ report.
Proof.
  intros Hf Ht rg_values mean_rg std_rg.
  destruct (two_columns_widths _ Ht) as (Hr & Hn & _).
  destruct (two_columns_column rows 0 Ht ltac:(lia)) as [Hc0 Hl0].
  destruct (two_columns_column rows 1 Ht ltac:(lia)) as [Hc1 Hl1].
  fold rg_values in Hc1, Hl1.
  destruct (np_min_max_nonempty rg_values) as (min_rg & max_rg & Hmin & Hmax).
  { intros E. rewrite E in Hl1. cbn in Hl1. lia. }
  pose proof (conf_int_unfold stdtrit rg_values) as Hci.
  exists min_rg, max_rg. eexists.
  unfold Stats.body, mbind, py_bind, bind, lift, np_loadtxt.
  rewrite Hf, Hr, Hc0, Hc1. fold rg_values. rewrite Hmin, Hmax, Hci, Hl1.
  fold mean_rg std_rg.
  unfold Stats.savefig, raise, write_file, print, mret, py_ret, ret.
  cbn [files stdout fst snd].
  lazymatch goal with |- context [matplotlib ?A] => exists A end.
  rewrite <- !app_assoc. cbn [app].
  eexists _, _. split; [done|]. split; [done|]. split; [done|].
  split; [|split; [|split; [|split; [|split]]]].
  - destruct (matplotlib _); cbn [files stdout].
    + reflexivity.
    + rewrite <- !app_assoc. cbn [app]. reflexivity.
  - rewrite !elem_of_cons. auto 20.
  - rewrite !elem_of_cons. auto 20.
  - rewrite !elem_of_cons. auto 20.
  - rewrite !elem_of_cons. auto 20.
  - rewrite !elem_of_cons. auto 20.
Qed.

Lemma stats_body_unreadable filename w :
  match files w !! filename with
  | None =>
      Stats.body matplotlib stdtrit filename w
      = (Raises (FileNotFoundError filename), w)
  | Some (Table rows) =>
      if rectangular rows then
        two_columns rows = false →
        Stats.body matplotlib stdtrit filename w = (Raises IndexError, w)
      else Stats.body matplotlib stdtrit filename w = (Raises ValueError, w)
  | Some _ => Stats.body matplotlib stdtrit filename w = (Raises ValueError, w)
  end.
Proof.
  unfold Stats.body, mbind, py_bind, bind, lift, np_loadtxt.
  destruct (files w !! filename) as [[rows|?|?|?]|]; try done.
  destruct (rectangular rows) eqn:Hr; [|done]. intros Ht.
  destruct (column (squeeze rows) 0) as [timesteps|e] eqn:Hc0.
  - destruct (column (squeeze rows) 1) as [rg_values|e] eqn:Hc1.
    + rewrite (column_two_columns _ _ Hr Hc1) in Ht. done.
    + by rewrite (column_raises _ _ _ Hc1).
  - by rewrite (column_raises _ _ _ Hc0).
Qed.
End StatsRun.

(** ** The calls, from the body to the value returned *)

Section Runs.
#[local] Existing Instance binary64.

Lemma gfactor_accepted matplotlib filename w rows :
  files w !! filename = Some (Table rows) →
  two_columns rows = true →
  (∀ t, last (nth_column 0 rows) = Some t → is_finite t = true) →
  (∀ artists, matplotlib artists = None) →
  ∃ w' figure report,
    GFactor.analyze_gyration_data matplotlib filename w
    = (Returns (Some (actual_g (np_mean (equilibrated_rg (nth_column 1 rows)))
                        expected_g),
                Some (np_mean (equilibrated_rg (nth_column 1 rows))),
                Some (np_std (equilibrated_rg (nth_column 1 rows)))), w')
    ∧ files w' = <["g_factor_results.txt" := Report report]>
                   (<["rg_analysis_results.png" := Figure figure]> (files w)).
Proof.
  intros Hf Ht Hfin Hplot.
  rewrite gfactor_analyze.
  destruct (gfactor_body_table matplotlib filename
              (World (files w) (stdout w ++ gfactor_banner_lines)) rows Hf Ht)
    as (t_last & Hlast & Hb).
  destruct (py_int_finite t_last (Hfin _ Hlast)) as [steps Hsteps].
  rewrite Hsteps in Hb.
  destruct Hb as (artists & out & report & Hb & _).
  rewrite Hplot in Hb. unfold try_except. rewrite Hb.
  by eexists _, artists, report.
Qed.

Lemma gfactor_failure_value matplotlib filename w0 e w1 :
  GFactor.body matplotlib filename w0 = (Raises e, w1) →
  ∃ out,
    try_except (GFactor.body matplotlib filename)
      (GFactor.not_found filename) GFactor.other_error w0
    = (Returns (None, None, None), World (files w1) (stdout w1 ++ out))
    ∧ out = if is_FileNotFoundError e
            then [("ERROR: {} not found!", [Str filename]);
                  ("Make sure LAMMPS simulation completed successfully.", [])]
            else [("ERROR: {}", [Err e])].
Proof.
  intros Hb. rewrite (try_except_raises _ _ _ _ _ _ Hb).
  destruct (is_FileNotFoundError e).
  - rewrite gfactor_not_found. by eexists.
  - rewrite gfactor_other_error. by eexists.
Qed.


Lemma stats_accepted matplotlib stdtrit filename w rows :
  files w !! filename = Some (Table rows) →
  two_columns rows = true →
  (∀ artists, matplotlib artists = None) →
  ∃ w' ci figure report,
    Stats.analyze_gyration_data matplotlib stdtrit filename w
    = (Returns (Some (Stats.Summary (np_mean (nth_column 1 rows))
                        (np_std (nth_column 1 rows)) ci (length rows))), w')
    ∧ files w' = <["simulation_results.txt" := Report report]>
                   (<["rg_analysis_results.png" := Figure figure]> (files w)).
Proof.
  intros Hf Ht Hplot. rewrite stats_analyze.
  destruct (stats_body_table matplotlib stdtrit filename
              (World (files w) (stdout w ++ stats_banner_lines)) rows Hf Ht)
    as (min_rg & max_rg & ci & artists & out & report & _ & _ & _ & Hb & _).
  rewrite Hplot in Hb. unfold try_except. rewrite Hb.
  by eexists _, ci, artists, report.
Qed.

Lemma stats_failure_value matplotlib stdtrit filename w0 e w1 :
  Stats.body matplotlib stdtrit filename w0 = (Raises e, w1) →
  ∃ out,
    try_except (Stats.body matplotlib stdtrit filename)
      (Stats.not_found filename) Stats.other_error w0
    = (Returns None, World (files w1) (stdout w1 ++ out))
    ∧ out = if is_FileNotFoundError e
            then [("Error: {} not found!", [Str filename]);
                  ("Make sure LAMMPS simulation completed successfully.", [])]
            else [("Error analyzing data: {}", [Err e])].
Proof.
  intros Hb. rewrite (try_except_raises _ _ _ _ _ _ Hb).
  destruct (is_FileNotFoundError e).
  - rewrite stats_not_found. by eexists.
  - rewrite stats_other_error. by eexists.
Qed.



End Runs.

(** ** What the scripts read and write

    [reads_only] holds of every step of the scripts and is kept by
    sequencing and by the [try] statement. *)

Section Effects.
Implicit Types w : world.
Implicit Types written : list (string * file).

Lemma after_nil w : after [] [] w = w.
Proof. destruct w as [fs out]. unfold after. cbn. by rewrite app_nil_r. Qed.

Lemma after_after written1 out1 written2 out2 w :
  after written2 out2 (after written1 out1 w)
  = after (written1 ++ written2) (out1 ++ out2) w.
Proof.
  unfold after, write_all. cbn [files stdout].
  by rewrite foldl_app, app_assoc.
Qed.

Lemma write_all_cons q c written fs :
  write_all ((q, c) :: written) fs = write_all written (<[q := c]> fs).
Proof. reflexivity. Qed.

Lemma write_all_frame written fs p :
  Forall (λ pc, pc.1 ≠ p) written → write_all written fs !! p = fs !! p.
Proof.
  revert fs. induction written as [|[q c] written IH]; intros fs H; [done|].
  apply Forall_cons in H as [Hq H]. rewrite write_all_cons, IH by done.
  by apply lookup_insert_ne.
Qed.

(** Writing the same files again changes nothing. *)
Lemma write_all_const_or_id written p :
  (∀ fs, write_all written fs !! p = fs !! p)
  ∨ (∃ c, ∀ fs, write_all written fs !! p = Some c).
Proof.
  induction written as [|[q c] written IH]; [by left|].
  destruct IH as [IH|[c' IH]].
  - destruct (decide (q = p)) as [->|Hne].
    + right. exists c. intros fs.
      by rewrite write_all_cons, IH, lookup_insert_eq.
    + left. intros fs.
      by rewrite write_all_cons, IH, lookup_insert_ne.
  - right. exists c'. intros fs. rewrite write_all_cons. apply IH.
Qed.

Lemma write_all_idemp written fs fs' :
  write_all written fs = fs' → write_all written fs' = fs'.
Proof.
  intros <-. apply map_eq. intros p.
  destruct (write_all_const_or_id written p) as [H|[c H]].
  - by rewrite H.
  - by rewrite !H.
Qed.

Lemma write_all_determined written p (content : option file) :
  ∃ content', ∀ fs, fs !! p = content → write_all written fs !! p = content'.
Proof.
  destruct (write_all_const_or_id written p) as [H|[c H]].
  - exists content. intros fs <-. apply H.
  - exists (Some c). intros fs _. apply H.
Qed.

Context {filename : string} {outputs : list string}.

Lemma reads_only_ret {A} (a : A) : reads_only filename outputs (mret a).
Proof.
  intros content. exists (Returns a), [], []. split; [done|].
  intros w _. by rewrite after_nil.
Qed.

Lemma reads_only_raise {A} e : reads_only filename outputs (@raise A e).
Proof.
  intros content. exists (Raises e), [], []. split; [done|].
  intros w _. by rewrite after_nil.
Qed.

Lemma reads_only_lift {A} (o : outcome A) : reads_only filename outputs (lift o).
Proof.
  intros content. exists o, [], []. split; [done|].
  intros w _. by rewrite after_nil.
Qed.

Lemma reads_only_print template values :
  reads_only filename outputs (print template values).
Proof.
  intros content. exists (Returns tt), [], [(template, values)]. done.
Qed.

Lemma reads_only_write_file path content :
  path ∈ outputs → reads_only filename outputs (write_file path content).
Proof.
  intros Hp input. exists (Returns tt), [(path, content)], [].
  split; [by repeat constructor|]. intros w _.
  unfold write_file, after. cbn. by rewrite !app_nil_r.
Qed.

Lemma reads_only_loadtxt : reads_only filename outputs (np_loadtxt filename).
Proof.
  intros content.
  exists (match content with
          | None => Raises (FileNotFoundError filename)
          | Some (Table rows) =>
              if rectangular rows then Returns (squeeze rows) else Raises ValueError
          | Some _ => Raises ValueError
          end), [], [].
  split; [done|]. intros w Hf. unfold np_loadtxt. rewrite Hf, after_nil.
  destruct content as [[rows|?|?|?]|]; try done. by destruct (rectangular rows).
Qed.

Lemma reads_only_bind {A B} (m : py A) (k : A → py B) :
  reads_only filename outputs m → (∀ a, reads_only filename outputs (k a)) →
  reads_only filename outputs (m ≫= k).
Proof.
  intros Hm Hk content.
  destruct (Hm content) as (o & written & out & Hw & Hrun).
  destruct o as [a|e].
  - destruct (write_all_determined written filename content) as [content' Hc].
    destruct (Hk a content') as (o' & written' & out' & Hw' & Hrun').
    exists o', (written ++ written'), (out ++ out').
    split; [by apply Forall_app|]. intros w Hf.
    unfold mbind, py_bind, bind. rewrite (Hrun w Hf).
    rewrite (Hrun' (after written out w)) by (by apply Hc).
    by rewrite after_after.
  - exists (Raises e), written, out. split; [done|]. intros w Hf.
    unfold mbind, py_bind, bind. by rewrite (Hrun w Hf).
Qed.

Lemma reads_only_try_except {A} (body h1 : py A) (h2 : exn → py A) :
  reads_only filename outputs body → reads_only filename outputs h1 →
  (∀ e, reads_only filename outputs (h2 e)) →
  reads_only filename outputs (try_except body h1 h2).
Proof.
  intros Hb H1 H2 content.
  destruct (Hb content) as (o & written & out & Hw & Hrun).
  destruct o as [a|e].
  - exists (Returns a), written, out. split; [done|]. intros w Hf.
    unfold try_except. by rewrite (Hrun w Hf).
  - destruct (write_all_determined written filename content) as [content' Hc].
    assert (Hh : reads_only filename outputs
                   (if is_FileNotFoundError e then h1 else h2 e))
      by (by destruct (is_FileNotFoundError e)).
    destruct (Hh content') as (o' & written' & out' & Hw' & Hrun').
    exists o', (written ++ written'), (out ++ out').
    split; [by apply Forall_app|]. intros w Hf.
    unfold try_except. rewrite (Hrun w Hf), <- after_after.
    rewrite <- (Hrun' (after written out w)) by (by apply Hc).
    by destruct (is_FileNotFoundError e).
Qed.
End Effects.

Ltac reads_only_step :=
  lazymatch goal with
  | |- reads_only _ _ (_ ≫= _) => apply reads_only_bind; [|intros ?]
  | |- reads_only _ _ (print _ _) => apply reads_only_print
  | |- reads_only _ _ (lift _) => apply reads_only_lift
  | |- reads_only _ _ (mret _) => apply reads_only_ret
  | |- reads_only _ _ (raise _) => apply reads_only_raise
  | |- reads_only _ _ (np_loadtxt _) => apply reads_only_loadtxt
  | |- reads_only _ _ (write_file _ _) =>
      apply reads_only_write_file;
      repeat first [apply list_elem_of_here | apply list_elem_of_further]
  | |- reads_only _ _ (let '(_, _) := ?x in _) => destruct x
  end.

Section GFactorEffects.
Variable matplotlib : list artist → option exn.

Lemma gfactor_savefig_reads_only filename artists :
  reads_only filename gfactor_outputs
    (GFactor.savefig matplotlib "rg_analysis_results.png" artists).
Proof.
  unfold GFactor.savefig. destruct (matplotlib artists); reads_only_step.
Qed.

Lemma gfactor_body_reads_only filename :
  reads_only filename gfactor_outputs (GFactor.body matplotlib filename).
Proof.
  unfold GFactor.body. cbv zeta.
  repeat first [apply gfactor_savefig_reads_only | reads_only_step].
Qed.

Lemma gfactor_try_reads_only filename :
  reads_only filename gfactor_outputs
    (try_except (GFactor.body matplotlib filename)
       (GFactor.not_found filename) GFactor.other_error).
Proof.
  apply reads_only_try_except.
  - apply gfactor_body_reads_only.
  - unfold GFactor.not_found. repeat reads_only_step.
  - intros e. unfold GFactor.other_error. repeat reads_only_step.
Qed.

Lemma gfactor_reads_only filename :
  reads_only filename gfactor_outputs
    (GFactor.analyze_gyration_data matplotlib filename).
Proof.
  unfold GFactor.analyze_gyration_data, GFactor.banner.
  apply reads_only_bind; [repeat reads_only_step|intros _].
  apply gfactor_try_reads_only.
Qed.
End GFactorEffects.

Section StatsEffects.
Variable matplotlib : list artist → option exn.
Variable stdtrit : Z → float → float.

Lemma stats_savefig_reads_only filename artists :
  reads_only filename stats_outputs
    (Stats.savefig matplotlib "rg_analysis_results.png" artists).
Proof.
  unfold Stats.savefig. destruct (matplotlib artists); reads_only_step.
Qed.

Lemma stats_body_reads_only filename :
  reads_only filename stats_outputs (Stats.body matplotlib stdtrit filename).
Proof.
  unfold Stats.body. cbv zeta.
  repeat first [apply stats_savefig_reads_only | reads_only_step].
Qed.

Lemma stats_try_reads_only filename :
  reads_only filename stats_outputs
    (try_except (Stats.body matplotlib stdtrit filename)
       (Stats.not_found filename) Stats.other_error).
Proof.
  apply reads_only_try_except.
  - apply stats_body_reads_only.
  - unfold Stats.not_found. repeat reads_only_step.
  - intros e. unfold Stats.other_error. repeat reads_only_step.
Qed.

Lemma stats_reads_only filename :
  reads_only filename stats_outputs
    (Stats.analyze_gyration_data matplotlib stdtrit filename).
Proof.
  unfold Stats.analyze_gyration_data, Stats.banner.
  apply reads_only_bind; [repeat reads_only_step|intros _].
  apply stats_try_reads_only.
Qed.
End StatsEffects.

Section ReadsOnly.
Context {A : Type} (filename : string) (outputs : list string) (m : py A).
Hypothesis Hm : reads_only filename outputs m.

Lemma reads_only_frame w :
  (∀ p, p ∉ outputs → files (m w).2 !! p = files w !! p)
  ∧ stdout w `prefix_of` stdout (m w).2.
Proof.
  destruct (Hm (files w !! filename)) as (o & written & out & Hw & Hrun).
  rewrite (Hrun w eq_refl). cbn [snd after files stdout]. split.
  - intros p Hp. apply write_all_frame.
    eapply Forall_impl; [exact Hw|]. intros pc Hpc Heq. apply Hp.
    by rewrite <- Heq.
  - by apply prefix_app_r.
Qed.

Lemma reads_only_rerun w :
  filename ∉ outputs →
  let run1 := m w in
  let run2 := m run1.2 in
  run2.1 = run1.1
  ∧ files run2.2 = files run1.2
  ∧ ∃ out, stdout run1.2 = stdout w ++ out
           ∧ stdout run2.2 = stdout run1.2 ++ out.
Proof.
  intros Hout run1 run2.
  destruct (reads_only_frame w) as [Hframe _].
  destruct (Hm (files w !! filename)) as (o & written & out & Hw & Hrun).
  subst run2 run1. rewrite (Hrun (m w).2) by (by apply Hframe).
  rewrite (Hrun w eq_refl). cbn [fst snd after files stdout].
  split; [done|]. split; [|by exists out].
  by apply (write_all_idemp written (files w)).
Qed.
End ReadsOnly.

(** ** The scenarios of the specification, evaluated in binary64

    The series [[(0,10.0),(1,10.0),(2,10.0),(3,10.0)]]: over the full series
    the mean is 10 and the standard deviation 0; the half-tail window is the
    index range [[2,4)] and its mean is 10.  A file of these four rows runs
    through the g-factor script to the verdict "excellent". *)

Example scenario_full_series :
  @np_mean _ binary64 [10; 10; 10; 10]%float = 10%float
  ∧ @np_std _ binary64 [10; 10; 10; 10]%float = 0%float.
Proof. split; reflexivity. Qed.

Example scenario_half_tail :
  @equilibrated_start float [10; 10; 10; 10]%float = 2
  ∧ @equilibrated_rg float [10; 10; 10; 10]%float = [10; 10]%float
  ∧ @np_mean _ binary64 (equilibrated_rg [10; 10; 10; 10]%float) = 10%float.
Proof. repeat split. Qed.

Example scenario_g_factor_run :
  match (GFactor.analyze_gyration_data (fun _ => None) "gyration.txt"
           (World {["gyration.txt" :=
                      Table [[0; 10]; [1; 10]; [2; 10]; [3; 10]]%float]} [])).1
  with
  | Returns (Some actual_g, Some avg_rg, Some std_rg) =>
      (abs (actual_g - 0.445) <=? 1e-9)%float = true
      ∧ avg_rg = 10%float ∧ std_rg = 0%float
  | _ => False
  end.
Proof. vm_compute. repeat split. Qed.

(** The g-factor of some ordinary averages, within [1e-9] of [0.445]. *)
Example g_factor_samples :
  Forall (fun rg => (abs (@actual_g _ binary64 rg 0.445 - 0.445) <=? 1e-9)%float
                    = true)
         [1; 3; 7.3; 10; 12.345; 100; 1e6]%float.
Proof. repeat constructor. Qed.

(** * The properties of the specification, C1 to C10 *)







(** C3.  For a non-empty series of [N] samples the half-tail window is the
    index range [[N/2, N)] (floor division): its [i]-th element is the
    series' element [N/2 + i], it ends where the series ends, so it has
    [N - N/2] elements, which is at most [N]. *)
Theorem half_tail_window {F : Type} (rg_values : list F) :
  rg_values ≠ [] →
  let N := length rg_values in
  equilibrated_start rg_values = N `div` 2
  ∧ (∀ i, equilibrated_rg rg_values !! i = rg_values !! (N `div` 2 + i))
  ∧ rg_values = take (N `div` 2) rg_values ++ equilibrated_rg rg_values
  ∧ length (equilibrated_rg rg_values) = N - N `div` 2
  ∧ length (equilibrated_rg rg_values) ≤ N.
Proof.
  intros Hne N. subst N. repeat split.
  - intros i. apply equilibrated_rg_lookup.
  - unfold equilibrated_rg, equilibrated_start. symmetry. apply take_drop.
  - apply equilibrated_rg_length.
  - rewrite equilibrated_rg_length. lia.
Qed.

Lemma half_tail_window_witness :
  equilibrated_rg [10; 10; 10; 10]%float = [10; 10]%float
  ∧ length (equilibrated_rg [10; 10; 10; 10]%float) = 4 - 4 `div` 2.
Proof.
  split; [reflexivity|].
  refine (proj1 (proj2 (proj2 (proj2
            (half_tail_window [10; 10; 10; 10]%float _))))).
  discriminate.
Defined.



(** C5, as the code has it.  [np.std] is the population standard deviation:
    in exact arithmetic it is the root of the sum of the squared deviations
    divided by [N].  A non-empty window of identical values has standard
    deviation zero in exact arithmetic; in binary64 it has whenever the
    values are finite and the computed mean compares equal to them. *)
Theorem std_population_identical :
  (∀ l : list R, @np_std _ exact l = population_std l)
  ∧ (∀ (c : R) (n : nat), n ≠ 0 → @np_std _ exact (replicate n c) = 0%R)
  ∧ (∀ (c : float) (n : nat),
       n ≠ 0 → is_finite c = true →
       (@np_mean _ binary64 (replicate n c) =? c)%float = true →
       (@np_std _ binary64 (replicate n c) =? 0)%float = true).
Proof.
  split; [exact np_std_exact|].
  split; [exact np_std_identical_exact|exact np_std_identical_binary64].
Qed.

Lemma std_population_identical_witness :
  (@np_std _ binary64 [10; 10; 10; 10] =? 0)%float = true
  ∧ @np_std _ exact [10; 10; 10; 10]%R = 0%R.
Proof.
  split.
  - refine (proj2 (proj2 std_population_identical) 10%float 4 _ _ _);
      [discriminate | reflexivity | reflexivity].
  - refine (proj1 (proj2 std_population_identical) 10%R 4 _). discriminate.
Defined.

(** In binary64 the mean of three samples [0.1] is [0.10000000000000002],
    and their standard deviation is [2^-56], not [0]. *)
Lemma std_population_identical_counterexample :
  @np_mean _ binary64 (replicate 3 0.1%float) = 0.10000000000000002%float
  ∧ @np_std _ binary64 (replicate 3 0.1%float) = 0x1p-56%float
  ∧ (@np_std _ binary64 (replicate 3 0.1%float) =? 0)%float = false.
Proof. repeat split. Qed.

(** C6, as the code has it.  For a series of [N >= 1] samples the running
    average has [N] elements, its element [i] is the sum of the samples
    [0..i], added in index order, divided by [i + 1], and its element [0] is
    the first sample.  In exact arithmetic element [i] is the mean of the
    samples [0..i] and the last element is the mean of the whole series. *)
Theorem running_average_spec :
  (∀ rg_values : list float,
     rg_values ≠ [] →
     length (@running_avg _ binary64 rg_values) = length rg_values
     ∧ (∀ i, i < length rg_values →
          @running_avg _ binary64 rg_values !! i
          = Some (@fdiv _ binary64
                    (@ordered_sum _ binary64 (take (S i) rg_values))
                    (@of_count _ binary64 (S i))))
     ∧ @running_avg _ binary64 rg_values !! 0 = head rg_values)
  ∧ (∀ rg_values : list R,
       rg_values ≠ [] →
       length (@running_avg _ exact rg_values) = length rg_values
       ∧ (∀ i, i < length rg_values →
            @running_avg _ exact rg_values !! i
            = Some (@np_mean _ exact (take (S i) rg_values)))
       ∧ @running_avg _ exact rg_values !! 0 = head rg_values
       ∧ last (@running_avg _ exact rg_values)
         = Some (@np_mean _ exact rg_values)).
Proof.
  split.
  - intros rg_values Hne. split; [apply running_avg_length|].
    split; [apply @running_avg_lookup|].
    destruct rg_values as [|x a]; [done|]. apply running_avg_head.
  - intros rg_values Hne.
    assert (Hi : ∀ i, i < length rg_values →
              @running_avg _ exact rg_values !! i
              = Some (@np_mean _ exact (take (S i) rg_values))).
    { intros i Hi. rewrite running_avg_lookup by done.
      rewrite np_mean_exact, ordered_sum_exact, length_take.
      by replace (S i `min` length rg_values) with (S i) by lia. }
    split; [apply running_avg_length|]. split; [exact Hi|]. split.
    + destruct rg_values as [|x a]; [done|].
      rewrite Hi by (simpl; lia). cbn [take head]. rewrite take_0.
      f_equal. rewrite np_mean_exact. unfold Rsum. cbn [foldr length].
      simpl INR. lra.
    + rewrite running_avg_last by done.
      by rewrite np_mean_exact, ordered_sum_exact.
Qed.

Lemma running_average_spec_witness :
  @running_avg _ binary64 [1; 2; 3; 4]%float !! 0 = Some 1%float
  ∧ last (@running_avg _ exact [1; 2; 3; 4]%R)
    = Some (@np_mean _ exact [1; 2; 3; 4]%R).
Proof.
  split.
  - refine (proj2 (proj2 (proj1 running_average_spec [1; 2; 3; 4]%float _))).
    discriminate.
  - refine (proj2 (proj2 (proj2
              (proj2 running_average_spec [1; 2; 3; 4]%R _)))).
    discriminate.
Defined.

(** In binary64, for ten samples [0.1]: the partial sums, added in index
    order, end at [0.9999999999999999], so the last running average is
    [0.09999999999999999]; [np.mean] adds the first eight samples pairwise
    and gets the sum [1.0] and the mean [0.1]. *)
Lemma running_average_spec_counterexample :
  last (@running_avg _ binary64 (replicate 10 0.1%float))
  = Some 0.09999999999999999%float
  ∧ @np_mean _ binary64 (replicate 10 0.1%float) = 0.1%float
  ∧ last (@running_avg _ binary64 (replicate 10 0.1%float))
    ≠ Some (@np_mean _ binary64 (replicate 10 0.1%float)).
Proof.
  split; [reflexivity|]. split; [reflexivity|].
  intros H. apply (f_equal (fun o => match o with
                                     | Some x => (x =? 0.1)%float
                                     | None => false
                                     end)) in H.
  discriminate H.
Qed.




(** C8.  When the input path does not exist, both scripts fail through
    their [FileNotFoundError] handler: they return the failure value ([None],
    or three [None]s), the error line names the path, and the files on disk
    are those there were before: no plot and no results file is created. *)
Theorem missing_input_fails
    (matplotlib : list artist → option exn) (stdtrit : Z → float → float)
    (filename : string) (w : world) :
  files w !! filename = None →
  GFactor.analyze_gyration_data matplotlib filename w
  = (Returns (None, None, None),
     World (files w)
       (stdout w ++ gfactor_banner_lines
        ++ [("ERROR: {} not found!", [Str filename]);
            ("Make sure LAMMPS simulation completed successfully.", [])]))
  ∧ Stats.analyze_gyration_data matplotlib stdtrit filename w
    = (Returns None,
       World (files w)
         (stdout w ++ stats_banner_lines
          ++ [("Error: {} not found!", [Str filename]);
              ("Make sure LAMMPS simulation completed successfully.", [])])).
Proof.
  intros Hf. split.
  - rewrite gfactor_analyze.
    rewrite (try_except_raises _ _ _ _ _ _
               (gfactor_body_missing matplotlib filename
                  (World (files w) (stdout w ++ gfactor_banner_lines)) Hf)).
    cbn [is_FileNotFoundError]. rewrite gfactor_not_found. cbn [files stdout].
    by rewrite <- app_assoc.
  - rewrite stats_analyze.
    rewrite (try_except_raises _ _ _ _ _ _
               (stats_body_missing matplotlib stdtrit filename
                  (World (files w) (stdout w ++ stats_banner_lines)) Hf)).
    cbn [is_FileNotFoundError]. rewrite stats_not_found. cbn [files stdout].
    by rewrite <- app_assoc.
Qed.

Lemma missing_input_fails_witness :
  (GFactor.analyze_gyration_data (fun _ => None) "gyration.txt" (World ∅ [])).1
  = Returns (None, None, None)
  ∧ files (GFactor.analyze_gyration_data (fun _ => None) "gyration.txt"
             (World ∅ [])).2 = ∅.
Proof.
  pose proof (missing_input_fails (fun _ => None) (fun _ _ => 0%float)
                "gyration.txt" (World ∅ []) eq_refl) as [H _].
  rewrite H. split; reflexivity.
Defined.






(** * Further properties of the two scripts *)

(** ** Which input is accepted, and what a run leaves *)

Section Acceptance.
#[local] Existing Instance binary64.

Lemma scenario_last_finite t :
  last (nth_column 0 scenario_rows) = Some t → is_finite t = true.
Proof. intros Ht. vm_compute in Ht. injection Ht as <-. reflexivity. Defined.



(** X2.  When plotting works, the g-factor script returns three values
    exactly when the input file is a table of two columns (rows of one
    width, at least two rows, at least two columns) whose last time step is
    finite. *)
Theorem gfactor_accepts_iff
    (matplotlib : list artist → option exn) (filename : string) (w : world) :
  (∀ artists, matplotlib artists = None) →
  (∃ g a s w',
     GFactor.analyze_gyration_data matplotlib filename w
     = (Returns (Some g, Some a, Some s), w'))
  ↔ (∃ rows t,
       files w !! filename = Some (Table rows)
       ∧ two_columns rows = true
       ∧ last (nth_column 0 rows) = Some t
       ∧ is_finite t = true).
Proof.
  intros Hplot. split.
  - intros (g & a & s & w' & Hrun). rewrite gfactor_analyze in Hrun.
    set (w0 := World (files w) (stdout w ++ gfactor_banner_lines)) in *.
    assert (Hfail : ∀ e w1,
              GFactor.body matplotlib filename w0 = (Raises e, w1) → False).
    { intros e w1 Hb.
      destruct (gfactor_failure_value _ _ _ _ _ Hb) as (out & Ht & _).
      rewrite Ht in Hrun. discriminate Hrun. }
    pose proof (gfactor_body_unreadable matplotlib filename w0) as Hu.
    change (files w0) with (files w) in Hu.
    destruct (files w !! filename) as [[rows|?|?|?]|] eqn:Hf;
      try (exfalso; eapply Hfail; exact Hu).
    destruct (rectangular rows); [|exfalso; eapply Hfail; exact Hu].
    destruct (two_columns rows) eqn:Ht;
      [|exfalso; eapply Hfail; exact (Hu eq_refl)].
    destruct (gfactor_body_table matplotlib filename w0 rows Hf Ht)
      as (t & Hlast & Hb).
    exists rows, t. repeat split; try done.
    destruct (is_finite t) eqn:Hfin; [done|].
    rewrite (py_int_not_finite t Hfin) in Hb. exfalso. eapply Hfail, Hb.
  - intros (rows & t & Hf & Ht & Hlast & Hfin).
    destruct (gfactor_accepted matplotlib filename w rows Hf Ht)
      as (w' & _ & _ & Hrun & _); [|done|by eauto].
    intros t' Ht'. rewrite Hlast in Ht'. by injection Ht' as <-.
Qed.

Lemma gfactor_accepts_iff_witness :
  ∃ g a s w', GFactor.analyze_gyration_data plt_works "gyration.txt"
                (scenario_world "gyration.txt")
              = (Returns (Some g, Some a, Some s), w').
Proof.
  apply (proj2 (gfactor_accepts_iff plt_works "gyration.txt"
                  (scenario_world "gyration.txt") (λ _, eq_refl))).
  exists scenario_rows, 3%float. repeat split; reflexivity.
Defined.

(** X3.  The statistics script on a table of two columns, when plotting
    works: the call returns the mean and the standard deviation of the whole
    Rg column, the confidence interval and the number of rows, and the files
    on disk are those there were plus the plot and the results file, which
    records the number of samples and the interval. *)
Theorem stats_run_result
    (matplotlib : list artist → option exn) (stdtrit : Z → float → float)
    (filename : string) (w : world) (rows : list (list float)) :
  files w !! filename = Some (Table rows) →
  two_columns rows = true →
  (∀ artists, matplotlib artists = None) →
  let rg_values := nth_column 1 rows in
  ∃ w' ci figure report,
    Stats.conf_int stdtrit rg_values = Returns ci
    ∧ Stats.analyze_gyration_data matplotlib stdtrit filename w
      = (Returns (Some (Stats.Summary (np_mean rg_values) (np_std rg_values)
                          ci (length rows))), w')
    ∧ files w' = <["simulation_results.txt" := Report report]>
                   (<["rg_analysis_results.png" := Figure figure]> (files w))
    ∧ ("Number of samples: {}", [Int (Z.of_nat (length rows))]) ∈ report
    ∧ ("95% confidence interval: [{:.6f}, {:.6f}]", [Float ci.1; Float ci.2])
      ∈ report.
Proof.
  intros Hf Ht Hplot rg_values.
  rewrite stats_analyze.
  destruct (stats_body_table matplotlib stdtrit filename
              (World (files w) (stdout w ++ stats_banner_lines)) rows Hf Ht)
    as (min_rg & max_rg & ci & artists & out & report
        & _ & _ & Hci & Hb & _ & _ & _ & Hr1 & Hr2).
  rewrite Hplot in Hb. unfold try_except. rewrite Hb.
  by eexists _, ci, artists, report.
Qed.

Lemma stats_run_result_witness :
  ∃ w' ci, Stats.analyze_gyration_data plt_works t_table "gyration_data.txt"
             (scenario_world "gyration_data.txt")
           = (Returns (Some (Stats.Summary 10%float 0%float ci 4)), w').
Proof.
  assert (Hf : files (scenario_world "gyration_data.txt") !! "gyration_data.txt"
               = Some (Table scenario_rows)) by reflexivity.
  destruct (stats_run_result plt_works t_table "gyration_data.txt" _ scenario_rows
              Hf eq_refl (λ _, eq_refl))
    as (w' & ci & figure & report & _ & Hrun & _).
  exists w', ci. exact Hrun.
Defined.



(** X5.  Input that is there but is not a table of two columns: text that
    is not numeric and rows of different widths are reported as a
    [ValueError], a table of one width with fewer than two rows or fewer
    than two columns as an [IndexError].  Both scripts return their failure
    value, print the banner and the error line, and leave the files as they
    were. *)
Theorem malformed_input_rejected
    (matplotlib : list artist → option exn) (stdtrit : Z → float → float)
    (filename : string) (w : world) :
  let rejected (e : exn) :=
    GFactor.analyze_gyration_data matplotlib filename w
    = (Returns (None, None, None),
       World (files w)
         (stdout w ++ gfactor_banner_lines ++ [("ERROR: {}", [Err e])]))
    ∧ Stats.analyze_gyration_data matplotlib stdtrit filename w
      = (Returns None,
         World (files w)
           (stdout w ++ stats_banner_lines
            ++ [("Error analyzing data: {}", [Err e])])) in
  (∀ content, files w !! filename = Some (Text content) → rejected ValueError)
  ∧ (∀ rows, files w !! filename = Some (Table rows) →
       rectangular rows = false → rejected ValueError)
  ∧ (∀ rows, files w !! filename = Some (Table rows) →
       rectangular rows = true → two_columns rows = false →
       rejected IndexError).
Proof.
  intros rejected.
  assert (Hrej : ∀ e,
    (∀ w0, files w0 = files w →
       GFactor.body matplotlib filename w0 = (Raises e, w0)
       ∧ Stats.body matplotlib stdtrit filename w0 = (Raises e, w0)) →
    is_FileNotFoundError e = false → rejected e).
  { intros e Hb He. subst rejected. cbv beta.
    rewrite gfactor_analyze, stats_analyze.
    destruct (Hb (World (files w) (stdout w ++ gfactor_banner_lines)) eq_refl)
      as [Hg _].
    destruct (Hb (World (files w) (stdout w ++ stats_banner_lines)) eq_refl)
      as [_ Hs].
    rewrite (try_except_raises _ _ _ _ _ _ Hg), (try_except_raises _ _ _ _ _ _ Hs).
    rewrite He, gfactor_other_error, stats_other_error. cbn [files stdout].
    by rewrite <- !app_assoc. }
  split; [|split].
  - intros content Hf. apply Hrej; [|done]. intros w0 Hw0.
    pose proof (gfactor_body_unreadable matplotlib filename w0) as Hg.
    pose proof (stats_body_unreadable matplotlib stdtrit filename w0) as Hs.
    rewrite Hw0, Hf in Hg, Hs. done.
  - intros rows Hf Hr. apply Hrej; [|done]. intros w0 Hw0.
    pose proof (gfactor_body_unreadable matplotlib filename w0) as Hg.
    pose proof (stats_body_unreadable matplotlib stdtrit filename w0) as Hs.
    rewrite Hw0, Hf, Hr in Hg, Hs. done.
  - intros rows Hf Hr Ht. apply Hrej; [|done]. intros w0 Hw0.
    pose proof (gfactor_body_unreadable matplotlib filename w0) as Hg.
    pose proof (stats_body_unreadable matplotlib stdtrit filename w0) as Hs.
    rewrite Hw0, Hf, Hr in Hg, Hs. by split; [apply Hg|apply Hs].
Qed.

Lemma malformed_input_rejected_witness :
  (GFactor.analyze_gyration_data plt_works "gyration.txt"
     (World {["gyration.txt" := Text "Rg"]} [])).1
  = Returns (None, None, None)
  ∧ (Stats.analyze_gyration_data plt_works t_table "gyration_data.txt"
       (World {["gyration_data.txt" := Table [[10]; [10]; [10]]%float]} [])).1
    = Returns None.
Proof.
  split.
  - assert (Hf : files (World {["gyration.txt" := Text "Rg"]} []) !! "gyration.txt"
                 = Some (Text "Rg")) by reflexivity.
    by rewrite (proj1 (proj1 (malformed_input_rejected plt_works t_table
                                "gyration.txt" _) "Rg" Hf)).
  - assert (Hf : files (World {["gyration_data.txt"
                                  := Table [[10]; [10]; [10]]%float]} [])
                   !! "gyration_data.txt"
                 = Some (Table [[10]; [10]; [10]]%float)) by reflexivity.
    by rewrite (proj2 (proj2 (proj2 (malformed_input_rejected plt_works t_table
                                       "gyration_data.txt" _))
                         [[10]; [10]; [10]]%float Hf eq_refl eq_refl)).
Defined.

(** X6.  A last time step that is a NaN or an infinity: the g-factor script,
    which prints it as an integer, fails with a [ValueError] (NaN) or an
    [OverflowError] (infinity) before it prints any result and returns its
    failure value; the statistics script accepts the same file. *)
Theorem last_timestep_not_finite
    (matplotlib : list artist → option exn) (stdtrit : Z → float → float)
    (filename : string) (w : world) (rows : list (list float)) (t : float) :
  files w !! filename = Some (Table rows) →
  two_columns rows = true →
  last (nth_column 0 rows) = Some t →
  is_finite t = false →
  GFactor.analyze_gyration_data matplotlib filename w
  = (Returns (None, None, None),
     World (files w)
       (stdout w ++ gfactor_banner_lines
        ++ [("ERROR: {}",
             [Err (if is_nan t then ValueError else OverflowError)])]))
  ∧ ((∀ artists, matplotlib artists = None) →
     ∃ s w', Stats.analyze_gyration_data matplotlib stdtrit filename w
             = (Returns (Some s), w')).
Proof.
  intros Hf Ht Hlast Hfin. split.
  - rewrite gfactor_analyze.
    destruct (gfactor_body_table matplotlib filename
                (World (files w) (stdout w ++ gfactor_banner_lines)) rows Hf Ht)
      as (t_last & Hlast' & Hb).
    rewrite Hlast in Hlast'. injection Hlast' as <-.
    rewrite (py_int_not_finite t Hfin) in Hb.
    rewrite (try_except_raises _ _ _ _ _ _ Hb).
    replace (is_FileNotFoundError _) with false by (by destruct (is_nan t)).
    rewrite gfactor_other_error. cbn [files stdout]. by rewrite <- app_assoc.
  - intros Hplot.
    destruct (stats_accepted matplotlib stdtrit filename w rows Hf Ht Hplot)
      as (w' & ci & _ & _ & Hrun & _).
    by eauto.
Qed.

Lemma last_timestep_not_finite_witness :
  (GFactor.analyze_gyration_data plt_works "gyration.txt"
     (World {["gyration.txt" := Table [[0; 10]; [nan; 10]]%float]} [])).1
  = Returns (None, None, None).
Proof.
  assert (Hf : files (World {["gyration.txt" := Table [[0; 10]; [nan; 10]]%float]} [])
                 !! "gyration.txt"
               = Some (Table [[0; 10]; [nan; 10]]%float)) by reflexivity.
  by rewrite (proj1 (last_timestep_not_finite plt_works t_table "gyration.txt" _
                       [[0; 10]; [nan; 10]]%float nan Hf eq_refl eq_refl eq_refl)).
Defined.

End Acceptance.

(** ** When plotting fails *)

Section PlottingFailure.
#[local] Existing Instance binary64.



(** X8.  A [FileNotFoundError] raised by a plotting call is taken by the
    handler meant for the input file: the last lines printed say that the
    input file was not found, although it is there and was read. *)
Theorem plotting_file_error_blames_input
    (matplotlib : list artist → option exn) (stdtrit : Z → float → float)
    (filename : string) (w : world) (rows : list (list float)) (path : string) :
  files w !! filename = Some (Table rows) →
  two_columns rows = true →
  (∀ t, last (nth_column 0 rows) = Some t → is_finite t = true) →
  (∀ artists, matplotlib artists = Some (FileNotFoundError path)) →
  (∃ out,
     stdout (GFactor.analyze_gyration_data matplotlib filename w).2
     = out ++ [("ERROR: {} not found!", [Str filename]);
               ("Make sure LAMMPS simulation completed successfully.", [])])
  ∧ (∃ out,
       stdout (Stats.analyze_gyration_data matplotlib stdtrit filename w).2
       = out ++ [("Error: {} not found!", [Str filename]);
                 ("Make sure LAMMPS simulation completed successfully.", [])]).
Proof.
  intros Hf Ht Hfin Hplot. split.
  - rewrite gfactor_analyze.
    destruct (gfactor_body_table matplotlib filename
                (World (files w) (stdout w ++ gfactor_banner_lines)) rows Hf Ht)
      as (t_last & Hlast & Hb).
    destruct (py_int_finite t_last (Hfin _ Hlast)) as [steps Hsteps].
    rewrite Hsteps in Hb.
    destruct Hb as (artists & out & report & Hb & _).
    rewrite Hplot in Hb.
    destruct (gfactor_failure_value _ _ _ _ _ Hb) as (out' & Hrun & ->).
    rewrite Hrun. cbn [is_FileNotFoundError snd stdout]. by eexists.
  - rewrite stats_analyze.
    destruct (stats_body_table matplotlib stdtrit filename
                (World (files w) (stdout w ++ stats_banner_lines)) rows Hf Ht)
      as (min_rg & max_rg & ci & artists & out & report
          & _ & _ & _ & Hb & _).
    rewrite Hplot in Hb.
    destruct (stats_failure_value _ _ _ _ _ _ Hb) as (out' & Hrun & ->).
    rewrite Hrun. cbn [is_FileNotFoundError snd stdout]. by eexists.
Qed.

Lemma plotting_file_error_blames_input_witness :
  ∃ out,
    stdout (GFactor.analyze_gyration_data
              (plt_raises (FileNotFoundError "rg_analysis_results.png"))
              "gyration.txt" (scenario_world "gyration.txt")).2
    = out ++ [("ERROR: {} not found!", [Str "gyration.txt"]);
              ("Make sure LAMMPS simulation completed successfully.", [])].
Proof.
  assert (Hf : files (scenario_world "gyration.txt") !! "gyration.txt"
               = Some (Table scenario_rows)) by reflexivity.
  exact (proj1 (plotting_file_error_blames_input
                  (plt_raises (FileNotFoundError "rg_analysis_results.png"))
                  t_table "gyration.txt" _ scenario_rows
                  "rg_analysis_results.png" Hf eq_refl
                  scenario_last_finite (λ _, eq_refl))).
Defined.

End PlottingFailure.

(** ** The files and the output around a run *)

Section World.
#[local] Existing Instance binary64.



(** X10.  Whatever the input and whatever plotting does, a call changes no
    file other than the script's two output files, and it only adds to the
    output: what was printed before stays, followed by the banner. *)
Theorem analysis_touches_only_outputs
    (matplotlib : list artist → option exn) (stdtrit : Z → float → float)
    (filename : string) (w : world) :
  (let w' := (GFactor.analyze_gyration_data matplotlib filename w).2 in
   (∀ p, p ∉ gfactor_outputs → files w' !! p = files w !! p)
   ∧ stdout w ++ gfactor_banner_lines `prefix_of` stdout w')
  ∧ (let w' := (Stats.analyze_gyration_data matplotlib stdtrit filename w).2 in
     (∀ p, p ∉ stats_outputs → files w' !! p = files w !! p)
     ∧ stdout w ++ stats_banner_lines `prefix_of` stdout w').
Proof.
  split; cbv zeta.
  - split.
    + apply (reads_only_frame filename gfactor_outputs _
               (gfactor_reads_only matplotlib filename) w).
    + rewrite gfactor_analyze.
      apply (reads_only_frame filename gfactor_outputs _
               (gfactor_try_reads_only matplotlib filename)
               (World (files w) (stdout w ++ gfactor_banner_lines))).
  - split.
    + apply (reads_only_frame filename stats_outputs _
               (stats_reads_only matplotlib stdtrit filename) w).
    + rewrite stats_analyze.
      apply (reads_only_frame filename stats_outputs _
               (stats_try_reads_only matplotlib stdtrit filename)
               (World (files w) (stdout w ++ stats_banner_lines))).
Qed.

(** X11.  Running a script again on the same input, when the input file is
    not one of its output files, returns the same value, prints the same
    lines again and leaves the files as the first run left them. *)
Theorem analysis_rerun_reproduces
    (matplotlib : list artist → option exn) (stdtrit : Z → float → float)
    (filename : string) (w : world) :
  (filename ∉ gfactor_outputs →
   let run1 := GFactor.analyze_gyration_data matplotlib filename w in
   let run2 := GFactor.analyze_gyration_data matplotlib filename run1.2 in
   run2.1 = run1.1 ∧ files run2.2 = files run1.2
   ∧ ∃ out, stdout run1.2 = stdout w ++ out
            ∧ stdout run2.2 = stdout run1.2 ++ out)
  ∧ (filename ∉ stats_outputs →
     let run1 := Stats.analyze_gyration_data matplotlib stdtrit filename w in
     let run2 := Stats.analyze_gyration_data matplotlib stdtrit filename run1.2 in
     run2.1 = run1.1 ∧ files run2.2 = files run1.2
     ∧ ∃ out, stdout run1.2 = stdout w ++ out
              ∧ stdout run2.2 = stdout run1.2 ++ out).
Proof.
  split; intros Hout.
  - apply (reads_only_rerun filename gfactor_outputs _
             (gfactor_reads_only matplotlib filename) w Hout).
  - apply (reads_only_rerun filename stats_outputs _
             (stats_reads_only matplotlib stdtrit filename) w Hout).
Qed.

Lemma analysis_rerun_reproduces_witness :
  (GFactor.analyze_gyration_data plt_works "gyration.txt"
     (GFactor.analyze_gyration_data plt_works "gyration.txt"
        (scenario_world "gyration.txt")).2).1
  = (GFactor.analyze_gyration_data plt_works "gyration.txt"
       (scenario_world "gyration.txt")).1.
Proof.
  refine (proj1 (proj1 (analysis_rerun_reproduces plt_works t_table "gyration.txt"
                          (scenario_world "gyration.txt")) _)).
  unfold gfactor_outputs. rewrite !elem_of_cons.
  intros [H|[H|H]]; [discriminate H|discriminate H|by apply elem_of_nil in H].
Defined.

(** X12.  Both scripts save their plot as [rg_analysis_results.png].  After
    the g-factor script and then the statistics script have run on accepted
    input, the plot on disk is the one the statistics script alone would
    have written; the g-factor results file is still there. *)
Theorem plot_file_is_shared
    (matplotlib : list artist → option exn) (stdtrit : Z → float → float)
    (gyration gyration_data : string) (w : world)
    (rows rows' : list (list float)) :
  files w !! gyration = Some (Table rows) → two_columns rows = true →
  (∀ t, last (nth_column 0 rows) = Some t → is_finite t = true) →
  files w !! gyration_data = Some (Table rows') → two_columns rows' = true →
  gyration_data ∉ gfactor_outputs →
  (∀ artists, matplotlib artists = None) →
  let w1 := (GFactor.analyze_gyration_data matplotlib gyration w).2 in
  let w2 := (Stats.analyze_gyration_data matplotlib stdtrit gyration_data w1).2 in
  is_Some (files w1 !! "rg_analysis_results.png")
  ∧ files w2 !! "rg_analysis_results.png"
    = files (Stats.analyze_gyration_data matplotlib stdtrit gyration_data w).2
        !! "rg_analysis_results.png"
  ∧ files w2 !! "g_factor_results.txt" = files w1 !! "g_factor_results.txt"
  ∧ is_Some (files w2 !! "g_factor_results.txt").
Proof.
  intros Hf Ht Hfin Hf' Ht' Hout Hplot w1 w2.
  destruct (gfactor_accepted matplotlib gyration w rows Hf Ht Hfin Hplot)
    as (w1' & figure & report & Hrun1 & Hfiles1).
  assert (Hw1 : w1 = w1') by (subst w1; by rewrite Hrun1).
  assert (Hpng1 : is_Some (files w1 !! "rg_analysis_results.png")).
  { rewrite Hw1, Hfiles1. rewrite lookup_insert_ne by done.
    rewrite lookup_insert_eq. by eexists. }
  assert (Htxt1 : is_Some (files w1 !! "g_factor_results.txt")).
  { rewrite Hw1, Hfiles1, lookup_insert_eq. by eexists. }
  assert (Hne : gyration_data ≠ "rg_analysis_results.png").
  { intros ->. apply Hout. apply list_elem_of_here. }
  assert (Hf1 : files w1 !! gyration_data = Some (Table rows')).
  { subst w1. rewrite <- Hf'.
    apply (reads_only_frame gyration gfactor_outputs _
             (gfactor_reads_only matplotlib gyration) w). done. }
  destruct (stats_reads_only matplotlib stdtrit gyration_data (Some (Table rows')))
    as (o & written & out & Hw & Hrun).
  subst w2. rewrite (Hrun w1 Hf1), (Hrun w Hf'). cbn [snd after files].
  split; [done|]. split; [|split].
  - destruct (write_all_const_or_id written "rg_analysis_results.png")
      as [Hid|[c Hc]]; [|by rewrite !Hc].
    exfalso.
    set (w0 := World (delete "rg_analysis_results.png" (files w)) []).
    assert (Hf0 : files w0 !! gyration_data = Some (Table rows')).
    { subst w0. cbn [files]. by rewrite lookup_delete_ne. }
    destruct (stats_accepted matplotlib stdtrit gyration_data w0 rows' Hf0 Ht' Hplot)
      as (w0' & ci & figure' & report' & Hrun0 & Hfiles0).
    rewrite (Hrun w0 Hf0) in Hrun0. injection Hrun0 as _ <-.
    cbn [after files] in Hfiles0.
    apply (f_equal (λ fs, fs !! "rg_analysis_results.png")) in Hfiles0.
    rewrite Hid in Hfiles0. subst w0. cbn [files] in Hfiles0.
    rewrite lookup_delete_eq, lookup_insert_ne, lookup_insert_eq in Hfiles0 by done.
    done.
  - apply write_all_frame. eapply Forall_impl; [exact Hw|].
    intros pc Hpc Heq. cbv beta in Hpc. rewrite Heq in Hpc.
    unfold stats_outputs in Hpc.
    rewrite !elem_of_cons in Hpc. destruct Hpc as [?|[?|Hnil]]; [done|done|].
    by apply elem_of_nil in Hnil.
  - rewrite write_all_frame; [done|]. eapply Forall_impl; [exact Hw|].
    intros pc Hpc Heq. cbv beta in Hpc. rewrite Heq in Hpc.
    unfold stats_outputs in Hpc.
    rewrite !elem_of_cons in Hpc. destruct Hpc as [?|[?|Hnil]]; [done|done|].
    by apply elem_of_nil in Hnil.
Qed.

Lemma plot_file_is_shared_witness :
  files (Stats.analyze_gyration_data plt_works t_table "gyration_data.txt"
           (GFactor.analyze_gyration_data plt_works "gyration.txt" both_world).2).2
    !! "rg_analysis_results.png"
  = files (Stats.analyze_gyration_data plt_works t_table "gyration_data.txt"
             both_world).2 !! "rg_analysis_results.png".
Proof.
  assert (Hf : files both_world !! "gyration.txt" = Some (Table scenario_rows))
    by reflexivity.
  assert (Hf' : files both_world !! "gyration_data.txt"
                = Some (Table scenario_rows)) by reflexivity.
  refine (proj1 (proj2 (plot_file_is_shared plt_works t_table "gyration.txt"
                          "gyration_data.txt" both_world scenario_rows
                          scenario_rows Hf eq_refl scenario_last_finite
                          Hf' eq_refl _ (λ _, eq_refl)))).
  unfold gfactor_outputs. rewrite !elem_of_cons.
  intros [H|[H|H]]; [discriminate H|discriminate H|by apply elem_of_nil in H].
Defined.

End World.

(** ** The main programs *)

Section Main.
#[local] Existing Instance binary64.





End Main.

(** ** Numbers: the verdict, NaN samples and degenerate series *)

Section Numbers.
#[local] Existing Instance binary64.
Local Open Scope float_scope.

(** X15.  The three verdicts are exclusive and exhaustive, read from the
    difference [d = abs(actual_g - expected_g)], which is never negative:
    "excellent" exactly when [d < 0.05], "good" exactly when [d < 0.05]
    fails and [d < 0.1] holds, "needs review" exactly when [d < 0.1] fails,
    which includes a difference that is a NaN. *)
Theorem verdict_bands_exhaustive (actual_g expected_g : float) :
  let d := difference actual_g expected_g in
  let v := classification actual_g expected_g in
  (v = Excellent ↔ (d <? 0.05) = true)
  ∧ (v = Good ↔ (d <? 0.05) = false ∧ (d <? 0.1) = true)
  ∧ (v = NeedsReview ↔ (d <? 0.1) = false)
  ∧ (d <? 0) = false
  ∧ (is_nan d = true → v = NeedsReview).
Proof.
  intros d v. subst v. unfold classification, classify. fold d.
  rewrite lit_0_05, lit_0_1. cbn [flt binary64].
  pose proof (below_0_05_below_0_1 d) as Hm.
  assert (Hd : (d <? 0) = false) by apply abs_not_negative.
  destruct (d <? 0.05) eqn:H1, (d <? 0.1) eqn:H2;
    try (by specialize (Hm eq_refl)).
  - repeat split; try done; try (by intros [? ?]).
    intros Hn%is_nan_eq. rewrite Hn in H1. done.
  - repeat split; try done; try (by intros [? ?]).
    intros Hn%is_nan_eq. rewrite Hn in H2. done.
  - repeat split; try done; by intros [? ?].
Qed.

Lemma verdict_bands_exhaustive_witness :
  classification 0.5 0.445 = Good ∧ classification nan 0.445 = NeedsReview.
Proof.
  split.
  - exact (proj2 (proj1 (proj2 (verdict_bands_exhaustive 0.5 0.445)))
             (conj eq_refl eq_refl)).
  - exact (proj2 (proj2 (proj2 (proj2 (verdict_bands_exhaustive nan 0.445))))
             eq_refl).
Defined.

(** X16.  A mean Rg that is zero or not finite: the computed g-factor is a
    NaN (the quotient of two zeros or of two infinities) and the verdict is
    "needs review". *)
Theorem degenerate_mean_gives_nan (avg_rg : float) :
  (avg_rg =? 0) = true ∨ is_finite avg_rg = false →
  actual_g avg_rg expected_g = nan
  ∧ classification (actual_g avg_rg expected_g) expected_g = NeedsReview.
Proof.
  intros H.
  assert (Hc : avg_rg = 0 ∨ avg_rg = (-0) ∨ avg_rg = infinity
               ∨ avg_rg = neg_infinity ∨ avg_rg = nan).
  { destruct H as [[s Hs]%eqb_zero_SF|H].
    - destruct (SF_zero_cases _ _ Hs); auto.
    - destruct (Prim2SF avg_rg) as [s|s| |s m e] eqn:E.
      + destruct (SF_zero_cases _ _ E); auto.
      + destruct (SF_infinity_cases _ _ E); auto.
      + right; right; right; right. by apply SF_nan_case.
      + exfalso. revert H. unfold is_finite, is_nan, is_infinity.
        rewrite !FloatAxioms.eqb_spec, FloatAxioms.abs_spec, E. unfold SFeqb.
        change (Prim2SF infinity) with (S754_infinity false).
        rewrite SFcompare_refl by done. by destruct s. }
  destruct Hc as [->|[->|[->|[->| ->]]]]; by vm_compute.
Qed.

Lemma degenerate_mean_gives_nan_witness :
  actual_g 0 expected_g = nan ∧ actual_g infinity expected_g = nan.
Proof.
  split.
  - exact (proj1 (degenerate_mean_gives_nan 0 (or_introl eq_refl))).
  - exact (proj1 (degenerate_mean_gives_nan infinity (or_intror eq_refl))).
Defined.

(** X17.  One NaN among the samples of the second half of the series makes
    the mean, the standard deviation and the g-factor NaN, and the verdict
    "needs review". *)
Theorem nan_sample_needs_review (rg_values : list float) :
  nan ∈ equilibrated_rg rg_values →
  let avg_rg := np_mean (equilibrated_rg rg_values) in
  let actual := actual_g avg_rg expected_g in
  avg_rg = nan
  ∧ np_std (equilibrated_rg rg_values) = nan
  ∧ actual = nan
  ∧ classification actual expected_g = NeedsReview.
Proof.
  intros Hn avg_rg actual. subst actual avg_rg.
  rewrite (np_mean_nan _ Hn), (np_std_nan _ Hn). by vm_compute.
Qed.

Lemma nan_sample_needs_review_witness :
  classification
    (actual_g (np_mean (equilibrated_rg [1; 2; nan; 3])) expected_g) expected_g
  = NeedsReview.
Proof.
  refine (proj2 (proj2 (proj2 (nan_sample_needs_review [1; 2; nan; 3] _)))).
  apply list_elem_of_here.
Defined.

(** X18.  One NaN among the samples makes every statistic of the statistics
    script a NaN: the mean, the standard deviation, the minimum, the
    maximum and both bounds of the confidence interval. *)
Theorem nan_sample_contaminates_statistics
    (stdtrit : Z → float → float) (rg_values : list float) :
  nan ∈ rg_values →
  np_mean rg_values = nan
  ∧ np_std rg_values = nan
  ∧ Stats.np_min rg_values = Returns nan
  ∧ Stats.np_max rg_values = Returns nan
  ∧ Stats.conf_int stdtrit rg_values = Returns (nan, nan).
Proof.
  intros Hn. split; [by apply np_mean_nan|]. split; [by apply np_std_nan|].
  split; [|split].
  - destruct rg_values as [|x a]; [by apply elem_of_nil in Hn|].
    cbn [Stats.np_min]. by rewrite foldl_minimum_nan.
  - destruct rg_values as [|x a]; [by apply elem_of_nil in Hn|].
    cbn [Stats.np_max]. by rewrite foldl_maximum_nan.
  - rewrite conf_int_unfold, (np_mean_nan _ Hn). by rewrite !t_ppf_nan_loc.
Qed.

Lemma nan_sample_contaminates_statistics_witness :
  np_mean [1; nan; 3] = nan ∧ Stats.np_max [1; nan; 3] = Returns nan.
Proof.
  assert (Hn : nan ∈ [1; nan; 3]) by apply list_elem_of_further, list_elem_of_here.
  destruct (nan_sample_contaminates_statistics t_table [1; nan; 3] Hn)
    as (Hmean & _ & _ & Hmax & _).
  by split.
Defined.

(** X19.  On a non-empty series without NaN, [np.min] and [np.max] return
    samples of the series, the minimum is at most every sample and every
    sample is at most the maximum. *)
Theorem min_max_bounds (rg_values : list float) :
  rg_values ≠ [] →
  Forall (λ x, is_nan x = false) rg_values →
  ∃ min_rg max_rg,
    Stats.np_min rg_values = Returns min_rg
    ∧ Stats.np_max rg_values = Returns max_rg
    ∧ min_rg ∈ rg_values ∧ max_rg ∈ rg_values
    ∧ Forall (λ x, (min_rg <=? x) = true ∧ (x <=? max_rg) = true) rg_values
    ∧ (min_rg <=? max_rg) = true.
Proof.
  destruct rg_values as [|x a]; [done|]. intros _ Hn.
  apply Forall_cons in Hn as [Hx Ha].
  destruct (foldl_minimum_bound x a Hx Ha) as [Hlo1 Hlo2].
  destruct (foldl_maximum_bound x a Hx Ha) as [Hhi1 Hhi2].
  exists (foldl Stats.np_minimum x a), (foldl Stats.np_maximum x a).
  split; [done|]. split; [done|].
  split; [apply foldl_minimum_elem|]. split; [apply foldl_maximum_elem|].
  split; [|by apply (leb_trans _ x)].
  constructor; [done|]. apply Forall_forall. intros y Hy.
  split; [exact (proj1 (Forall_forall _ _) Hlo2 y Hy)
         |exact (proj1 (Forall_forall _ _) Hhi2 y Hy)].
Qed.

Lemma min_max_bounds_witness :
  ∃ min_rg max_rg,
    Stats.np_min [3; 1; 2] = Returns min_rg
    ∧ Stats.np_max [3; 1; 2] = Returns max_rg
    ∧ (min_rg <=? max_rg) = true.
Proof.
  destruct (min_max_bounds [3; 1; 2]) as (lo & hi & Hlo & Hhi & _ & _ & _ & Hle).
  - discriminate.
  - repeat constructor.
  - by exists lo, hi.
Defined.

(** X20.  The standard deviation computed is never negative, whatever the
    array: it is a NaN or at least zero. *)
Theorem std_never_negative (a : list float) :
  (np_std a <? 0) = false
  ∧ (is_nan (np_std a) = true
     ∨ (0 <=? np_std a) = true).
Proof.
  assert (H : (np_std a <? 0) = false).
  { unfold np_std. cbv zeta. binary64_ops. apply sqrt_not_negative. }
  split; [exact H|]. by apply not_negative_cases.
Qed.

(** X21.  The shortest series the g-factor script accepts has two samples:
    the second half is the last sample alone, the mean is that sample and
    the standard deviation is zero. *)
Theorem two_sample_series (x0 x1 : float) :
  is_finite x1 = true →
  equilibrated_rg [x0; x1] = [x1]
  ∧ (np_mean (equilibrated_rg [x0; x1]) =? x1) = true
  ∧ (np_std (equilibrated_rg [x0; x1]) =? 0) = true.
Proof.
  intros Hx. split; [done|].
  change (equilibrated_rg [x0; x1]) with (replicate 1 x1).
  assert (Hm : (np_mean (replicate 1 x1) =? x1) = true).
  { unfold np_mean, np_sum, pairwise_sum. cbn [replicate length pairwise_sum_rec].
    cbn [Nat.ltb Nat.leb block_sum foldl]. binary64_ops.
    change (of_count 1) with 1. change (of_count 0) with 0. rewrite div_one.
    destruct (Prim2SF x1) as [[]|s| |s m e] eqn:E.
    - assert (x1 = (-0)) as -> by (by apply Prim2SF_inj). reflexivity.
    - assert (Hz : x1 ≠ (-0)) by (intros ->; discriminate E).
      rewrite !(add_zero_l_exact x1) by done.
      rewrite FloatAxioms.eqb_spec, E. reflexivity.
    - apply is_finite_SF in Hx. by rewrite E in Hx.
    - apply is_finite_SF in Hx. by rewrite E in Hx.
    - assert (Hz : x1 ≠ (-0)) by (intros ->; discriminate E).
      rewrite !(add_zero_l_exact x1) by done.
      rewrite FloatAxioms.eqb_spec, E. unfold SFeqb. by rewrite SFcompare_refl. }
  split; [done|]. by apply np_std_identical_binary64.
Qed.

Lemma two_sample_series_witness :
  (np_mean (equilibrated_rg [5; 10]) =? 10) = true
  ∧ (np_std (equilibrated_rg [5; 10]) =? 0) = true.
Proof. exact (proj2 (two_sample_series 5 10 eq_refl)). Defined.

(** X22.  A series of identical finite samples whose computed mean equals
    them has standard deviation zero, so a standard error that is not
    positive: both bounds of its confidence interval are NaN. *)
Theorem constant_series_interval_nan
    (stdtrit : Z → float → float) (c : float) (n : nat) :
  n ≠ 0%nat → is_finite c = true →
  (np_mean (replicate n c) =? c) = true →
  Stats.conf_int stdtrit (replicate n c) = Returns (nan, nan).
Proof.
  intros Hn Hc Hm. rewrite conf_int_unfold.
  pose proof (np_std_identical_binary64 c n Hn Hc Hm) as Hs.
  rewrite !t_ppf_bad_scale; [done| |].
  all: unfold standard_error; binary64_ops; by apply zero_quotient_not_positive.
Qed.

Lemma constant_series_interval_nan_witness :
  Stats.conf_int t_table [10; 10; 10; 10] = Returns (nan, nan).
Proof.
  refine (constant_series_interval_nan t_table 10 4 _ eq_refl eq_refl).
  discriminate.
Defined.

End Numbers.
